(** * Vizart front end: job orchestration hook, upload hooks and progress simulation

    A shallow embedding of the TypeScript sources

    - [types/index.ts]                (module [Types]),
    - the [useProcessing] hook        (module [UseProcessing]),
    - [components/ImageUpload.tsx]    (module [ImageUpload]),
    - [hooks/useImageUpload.ts]       (module [UseImageUpload]),
    - [app/page.tsx], [simulateProgress] (module [Page]),
    - [app/page.tsx], the [Home] component (module [Home]),
    - the [ProcessingStatus] and [ResultDisplay] components (modules of
      the same names).

    React state is a record, one field per [useState] cell and per [useRef];
    a state setter is a state transformer.  Everything a handler does to the
    outside (network calls, [clearInterval], callbacks of the parent) is
    appended to a chronological log kept next to the state.  An [async]
    function is split at its [await]: the part before it ([_begin]) and the
    continuation ([_resume]), which takes the way the awaited promise settled
    as an argument.  JavaScript numbers are modelled as rationals; of the
    program only facts of order are stated, which hold of doubles as well. *)

From Stdlib Require Import String List Bool ZArith QArith Qround Qminmax Lqa Lia.
Import ListNotations.

Open Scope string_scope.
Open Scope list_scope.

(** ** JavaScript values the handlers look at *)

(** What a [catch] clause can receive: an [Error] instance with its message,
    any other value that has properties, which may or may not carry a
    [message], or [undefined] or [null], which have no properties at all. *)
Inductive Thrown : Type :=
| ThrownError (msg : string)
| ThrownValue (msg : option string)
| ThrownNullish.

(** How an awaited promise settles. *)
Inductive Settled (A : Type) : Type :=
| Fulfilled (value : A)
| Rejected (reason : Thrown).
Arguments Fulfilled {A} value.
Arguments Rejected {A} reason.

(** Truthiness of a string: only the empty string is falsy. *)
Definition truthy (s : string) : bool := negb (s =? "").

(** Truthiness of an optional string ([undefined] is falsy). *)
Definition truthy_opt (o : option string) : bool :=
  match o with
  | Some s => truthy s
  | None => false
  end.

(** [o || d] for an optional string [o] and a string literal [d]. *)
Definition or_default (o : option string) (d : string) : string :=
  match o with
  | Some s => if truthy s then s else d
  | None => d
  end.

(** [err instanceof Error ? err.message : d] *)
Definition error_message (err : Thrown) (d : string) : string :=
  match err with
  | ThrownError m => m
  | ThrownValue _ => d
  | ThrownNullish => d
  end.

(** [err.message] read off any thrown value: [Some] of what the property
    holds ([undefined] being [None]), or [None] when reading it throws a
    [TypeError], as it does on [undefined] and [null]. *)
Definition message_prop (err : Thrown) : option (option string) :=
  match err with
  | ThrownError m => Some (Some m)
  | ThrownValue m => Some m
  | ThrownNullish => None
  end.

(** A browser [File], as far as the handlers read it. *)
Record File : Type := mkFile {
  name : string;
  type : string;
  size : Z
}.

(** ** A state monad with a log, shared by the hooks *)

Section Effects.
Context {W : Type}.

Definition M (A : Type) : Type := W -> A * W.

Definition ret {A : Type} (a : A) : M A := fun w => (a, w).

Definition bind {A B : Type} (m : M A) (k : A -> M B) : M B :=
  fun w => let (a, w') := m w in k a w'.

Definition gets {A : Type} (f : W -> A) : M A := fun w => (f w, w).

Definition modify (f : W -> W) : M unit := fun w => (tt, f w).

Definition when (b : bool) (m : M unit) : M unit :=
  if b then m else ret tt.

Definition exec {A : Type} (m : M A) (w : W) : W := snd (m w).

Definition eval {A : Type} (m : M A) (w : W) : A := fst (m w).
End Effects.
Arguments M : clear implicits.

Declare Scope eff_scope.
Delimit Scope eff_scope with eff.
Notation "x <- m ;; k" := (bind m (fun x => k))
  (at level 61, m at next level, right associativity) : eff_scope.
Notation "m ;; k" := (bind m (fun _ => k))
  (at level 61, right associativity) : eff_scope.

(** ** types/index.ts *)

Module Types.

Inductive GarmentType : Type := upper | lower | full.

Record ExtractedGarment : Type := mkExtractedGarment {
  garment_id : string;
  garment_type : GarmentType;
  garment_imageUrl : string;
  maskUrl : option string;
  confidence : Q
}.

Record JobResult : Type := mkJobResult {
  imageUrl : option string;
  extractedGarments : option (list ExtractedGarment);
  processingTime : option Q
}.

(** [status] is declared as the union of four string literals; at run time
    it is the string the server sent, and the hook compares it with [===]. *)
Record ProcessingJob : Type := mkProcessingJob {
  id : string;
  status : string;
  progress : Q;
  message : string;
  createdAt : Z;
  completedAt : option Z;
  result : option JobResult
}.

Record TryOnOptions : Type := mkTryOnOptions {
  preserveBackground : option bool;
  adjustSize : option bool;
  garmentType : option GarmentType
}.

Record TryOnRequest : Type := mkTryOnRequest {
  modelImage : File;
  garmentImage : File;
  options : option TryOnOptions
}.

Inductive OutputFormat : Type := png | jpg | webp.

Record TryOffOptions : Type := mkTryOffOptions {
  extractAll : option bool;
  garmentTypes : option (list GarmentType);
  outputFormat : option OutputFormat
}.

Record TryOffRequest : Type := mkTryOffRequest {
  off_modelImage : File;
  off_options : option TryOffOptions
}.

(** The payload of a submit response, read as [response.data?.jobId]. *)
Record SubmitData : Type := mkSubmitData {
  data_jobId : option string
}.

Record ApiResponse : Type := mkApiResponse {
  success : bool;
  data : option SubmitData;
  error : option string;
  jobId : option string
}.

(** The four literals of the declared [status] type. *)
Definition declared_status (s : string) : bool :=
  (s =? "pending") || (s =? "processing") || (s =? "completed") || (s =? "failed").

End Types.

(** ** The [useProcessing] hook *)

Module UseProcessing.

Local Open Scope eff_scope.

(** A handle returned by [setInterval]; always truthy. *)
Definition Timer : Type := nat.

(** What the hook does to its environment. *)
Inductive Effect : Type :=
| SubmitTryOn (request : Types.TryOnRequest)
| SubmitTryOff (request : Types.TryOffRequest)
| PollJobStatus (jobId : string)
| CancelJob (jobId : string)
| ClearInterval (t : Timer)
| ConsoleLog (line : string).

(** The five [useState] cells, the [useRef] cell and the log. *)
Record Hook : Type := mkHook {
  isProcessing : bool;
  progress : Q;
  message : string;
  job : option Types.ProcessingJob;
  error : option string;
  pollingRef : option Timer;
  log : list Effect
}.

(** The values given to [useState] and [useRef]. *)
Definition initial : Hook :=
  mkHook false 0%Q "" None None None [].

Definition setIsProcessing (b : bool) : M Hook unit :=
  modify (fun h => mkHook b (progress h) (message h) (job h) (error h) (pollingRef h) (log h)).

Definition setProgress (p : Q) : M Hook unit :=
  modify (fun h => mkHook (isProcessing h) p (message h) (job h) (error h) (pollingRef h) (log h)).

Definition setMessage (m : string) : M Hook unit :=
  modify (fun h => mkHook (isProcessing h) (progress h) m (job h) (error h) (pollingRef h) (log h)).

Definition setJob (j : option Types.ProcessingJob) : M Hook unit :=
  modify (fun h => mkHook (isProcessing h) (progress h) (message h) j (error h) (pollingRef h) (log h)).

Definition setError (e : option string) : M Hook unit :=
  modify (fun h => mkHook (isProcessing h) (progress h) (message h) (job h) e (pollingRef h) (log h)).

Definition setPollingRef (t : option Timer) : M Hook unit :=
  modify (fun h => mkHook (isProcessing h) (progress h) (message h) (job h) (error h) t (log h)).

Definition emit (e : Effect) : M Hook unit :=
  modify (fun h => mkHook (isProcessing h) (progress h) (message h) (job h) (error h) (pollingRef h)
                          (log h ++ [e])).

(** [if (pollingRef.current) { clearInterval(pollingRef.current);
    pollingRef.current = null }], written out three times in the source. *)
Definition clearPolling : M Hook unit :=
  current <- gets pollingRef ;;
  match current with
  | Some t => emit (ClearInterval t) ;; setPollingRef None
  | None => ret tt
  end.

Definition updateJobStatus (jobStatus : Types.ProcessingJob) : M Hook unit :=
  setJob (Some jobStatus) ;;
  setProgress (Types.progress jobStatus) ;;
  setMessage (Types.message jobStatus) ;;
  when ((Types.status jobStatus =? "completed") || (Types.status jobStatus =? "failed"))
    (setIsProcessing false ;;
     clearPolling).

(** The [catch] clause of [startTryOn] and [startTryOff]. *)
Definition start_catch (err : Thrown) : M Hook unit :=
  setError (Some (error_message err "Failed to start processing")) ;;
  setIsProcessing false.

(** [response.data?.jobId] *)
Definition response_jobId (response : Types.ApiResponse) : option string :=
  match Types.data response with
  | Some d => Types.data_jobId d
  | None => None
  end.

(** [startTryOn] up to [await apiClient.submitTryOn(request)]. *)
Definition startTryOn_begin (request : Types.TryOnRequest) : M Hook unit :=
  setIsProcessing true ;;
  setProgress 0%Q ;;
  setMessage "Initializing try-on process..." ;;
  setError None ;;
  emit (SubmitTryOn request).

(** [startTryOn] from the point where the submit promise has settled.  In
    the branch that starts polling the job id is present and not empty, so
    [or_default _ ""] is that id. *)
Definition startTryOn_resume (outcome : Settled Types.ApiResponse) : M Hook unit :=
  match outcome with
  | Fulfilled response =>
      if negb (Types.success response) || negb (truthy_opt (response_jobId response))
      then start_catch
             (ThrownError (or_default (Types.error response) "Failed to submit try-on request"))
      else emit (PollJobStatus (or_default (response_jobId response) ""))
  | Rejected err => start_catch err
  end.

(** [startTryOff] up to [await apiClient.submitTryOff(request)]. *)
Definition startTryOff_begin (request : Types.TryOffRequest) : M Hook unit :=
  setIsProcessing true ;;
  setProgress 0%Q ;;
  setMessage "Initializing garment extraction..." ;;
  setError None ;;
  emit (SubmitTryOff request).

Definition startTryOff_resume (outcome : Settled Types.ApiResponse) : M Hook unit :=
  match outcome with
  | Fulfilled response =>
      if negb (Types.success response) || negb (truthy_opt (response_jobId response))
      then start_catch
             (ThrownError (or_default (Types.error response) "Failed to submit try-off request"))
      else emit (PollJobStatus (or_default (response_jobId response) ""))
  | Rejected err => start_catch err
  end.

(** The whole of [startTryOn] when nothing else runs while it is suspended. *)
Definition startTryOn (request : Types.TryOnRequest)
           (outcome : Settled Types.ApiResponse) : M Hook unit :=
  startTryOn_begin request ;; startTryOn_resume outcome.

Definition startTryOff (request : Types.TryOffRequest)
           (outcome : Settled Types.ApiResponse) : M Hook unit :=
  startTryOff_begin request ;; startTryOff_resume outcome.

(** The handlers attached to the promise of [pollJobStatus]. *)
Definition poll_then (line : string) : M Hook unit :=
  emit (ConsoleLog line).

Definition poll_catch (err : Thrown) : M Hook unit :=
  match message_prop err with
  | Some m =>
      setError (Some (or_default m "Processing failed")) ;;
      setIsProcessing false
  | None => ret tt
  end.

(** [cancelProcessing] up to [await apiClient.cancelJob(job.id)]; the
    result tells whether the function is suspended there ([true]) or has
    returned at [if (!job?.id) return] ([false]). *)
Definition cancelProcessing_begin : M Hook bool :=
  current <- gets job ;;
  match current with
  | Some j =>
      if truthy (Types.id j)
      then emit (CancelJob (Types.id j)) ;; ret true
      else ret false
  | None => ret false
  end.

(** [cancelProcessing] once the cancel promise has settled; the value it
    resolves to is not read. *)
Definition cancelProcessing_resume (outcome : Settled unit) : M Hook unit :=
  match outcome with
  | Fulfilled _ =>
      setIsProcessing false ;;
      setProgress 0%Q ;;
      setMessage "" ;;
      setJob None ;;
      clearPolling
  | Rejected err =>
      setError (Some (error_message err "Failed to cancel processing"))
  end.

Definition cancelProcessing (outcome : Settled unit) : M Hook unit :=
  suspended <- cancelProcessing_begin ;;
  if suspended then cancelProcessing_resume outcome else ret tt.

Definition reset : M Hook unit :=
  setIsProcessing false ;;
  setProgress 0%Q ;;
  setMessage "" ;;
  setJob None ;;
  setError None ;;
  clearPolling.

(** What a caller of the hook can observe of a job in flight. *)
Definition observable (h : Hook)
  : bool * Q * string * option Types.ProcessingJob :=
  (isProcessing h, progress h, message h, job h).

(** Whether [updateJobStatus] takes its terminal branch. *)
Definition settles (jobStatus : Types.ProcessingJob) : bool :=
  (Types.status jobStatus =? "completed") || (Types.status jobStatus =? "failed").

(** A submit that did not yield a job: the promise was rejected, or the
    response is unsuccessful, or it carries no job id. *)
Definition submit_failed (outcome : Settled Types.ApiResponse) : Prop :=
  match outcome with
  | Fulfilled response =>
      Types.success response = false \/ truthy_opt (response_jobId response) = false
  | Rejected _ => True
  end.

(** The calls of [clearInterval] made when the handle [current] is
    cleared. *)
Definition cleared (current : option Timer) : list Effect :=
  match current with
  | Some t => [ClearInterval t]
  | None => []
  end.

(** The jobs for which polling was started, read off a log. *)
Fixpoint polled (l : list Effect) : list string :=
  match l with
  | [] => []
  | PollJobStatus jobId :: l' => jobId :: polled l'
  | _ :: l' => polled l'
  end.

(** The values of [progress] shown after each of a series of snapshots. *)
Fixpoint progress_trace (snapshots : list Types.ProcessingJob) (h : Hook) : list Q :=
  match snapshots with
  | [] => []
  | jobStatus :: rest =>
      let h' := exec (updateJobStatus jobStatus) h in
      progress h' :: progress_trace rest h'
  end.

(** *** The hook driven by a sequence of events *)

Inductive Event : Type :=
| CallStartTryOn (request : Types.TryOnRequest)
| TryOnSettled (outcome : Settled Types.ApiResponse)
| CallStartTryOff (request : Types.TryOffRequest)
| TryOffSettled (outcome : Settled Types.ApiResponse)
| Snapshot (jobStatus : Types.ProcessingJob)
| PollFulfilled (line : string)
| PollRejected (err : Thrown)
| CallCancel
| CancelSettled (outcome : Settled unit)
| CallReset.

Definition handle (e : Event) : M Hook unit :=
  match e with
  | CallStartTryOn request => startTryOn_begin request
  | TryOnSettled outcome => startTryOn_resume outcome
  | CallStartTryOff request => startTryOff_begin request
  | TryOffSettled outcome => startTryOff_resume outcome
  | Snapshot jobStatus => updateJobStatus jobStatus
  | PollFulfilled line => poll_then line
  | PollRejected err => poll_catch err
  | CallCancel => _ <- cancelProcessing_begin ;; ret tt
  | CancelSettled outcome => cancelProcessing_resume outcome
  | CallReset => reset
  end.

Fixpoint run (es : list Event) (h : Hook) : Hook :=
  match es with
  | [] => h
  | e :: es' => run es' (exec (handle e) h)
  end.

End UseProcessing.

(** ** components/ImageUpload.tsx *)

Module ImageUpload.

Local Open Scope eff_scope.

Inductive Effect : Type :=
| PreventDefault
| StopPropagation
| ReadAsDataURL (file : File)
| OnImageUpload (file : File).

(** The two [useState] cells and the log. *)
Record Component : Type := mkComponent {
  dragActive : bool;
  uploadedImage : option string;
  log : list Effect
}.

Definition initial : Component := mkComponent false None [].

Definition setDragActive (b : bool) : M Component unit :=
  modify (fun c => mkComponent b (uploadedImage c) (log c)).

Definition setUploadedImage (u : option string) : M Component unit :=
  modify (fun c => mkComponent (dragActive c) u (log c)).

Definition emit (e : Effect) : M Component unit :=
  modify (fun c => mkComponent (dragActive c) (uploadedImage c) (log c ++ [e])).

(** A drag event: its [type] and [dataTransfer.files]. *)
Record DragEvent : Type := mkDragEvent {
  event_type : string;
  files : list File
}.

Definition handleDrag (e : DragEvent) : M Component unit :=
  emit PreventDefault ;;
  emit StopPropagation ;;
  if (event_type e =? "dragenter") || (event_type e =? "dragover")
  then setDragActive true
  else if event_type e =? "dragleave"
       then setDragActive false
       else ret tt.

(** [file.type.startsWith('image/')] guards the whole body. *)
Definition handleFile (file : File) : M Component unit :=
  if String.prefix "image/" (type file)
  then emit (ReadAsDataURL file)
  else ret tt.

(** [reader.onloadend] of the reader created for [file]; [result] is
    [reader.result], [null] when the read failed. *)
Definition onloadend (file : File) (result : option string) : M Component unit :=
  setUploadedImage result ;;
  emit (OnImageUpload file).

Definition handleDrop (e : DragEvent) : M Component unit :=
  emit PreventDefault ;;
  emit StopPropagation ;;
  setDragActive false ;;
  match files e with
  | file :: _ => handleFile file
  | [] => ret tt
  end.

Definition handleFileInput (target_files : list File) : M Component unit :=
  match target_files with
  | file :: _ => handleFile file
  | [] => ret tt
  end.

Definition clearImage : M Component unit :=
  setUploadedImage None.

(** The files the parent's [onImageUpload] callback was called with. *)
Fixpoint uploads (l : list Effect) : list File :=
  match l with
  | [] => []
  | OnImageUpload f :: l' => f :: uploads l'
  | _ :: l' => uploads l'
  end.

End ImageUpload.

(** ** hooks/useImageUpload.ts *)

Module UseImageUpload.

Local Open Scope eff_scope.

(** The four [useState] cells. *)
Record Hook : Type := mkHook {
  image : option File;
  preview : option string;
  isUploading : bool;
  error : option string
}.

Definition initial : Hook := mkHook None None false None.

Definition setImage (i : option File) : M Hook unit :=
  modify (fun h => mkHook i (preview h) (isUploading h) (error h)).

Definition setPreview (p : option string) : M Hook unit :=
  modify (fun h => mkHook (image h) p (isUploading h) (error h)).

Definition setIsUploading (b : bool) : M Hook unit :=
  modify (fun h => mkHook (image h) (preview h) b (error h)).

Definition setError (e : option string) : M Hook unit :=
  modify (fun h => mkHook (image h) (preview h) (isUploading h) e).

(** What [validateImageFile] returns. *)
Record Validation : Type := mkValidation {
  isValid : bool;
  validation_error : option string
}.

(** A synchronous call returns or throws. *)
Inductive Completion (A : Type) : Type :=
| Returned (value : A)
| Threw (reason : Thrown).
Arguments Returned {A} value.
Arguments Threw {A} reason.

Section Upload.

(** [validateImageFile] of [@/lib/utils] is imported by the hook; it is
    taken as a parameter. *)
Variable validateImageFile : File -> Completion Validation.

(** The [catch] clause followed by the [finally] clause. *)
Definition upload_catch (err : Thrown) : M Hook unit :=
  setError (Some (error_message err "Upload failed")) ;;
  setIsUploading false.

(** [uploadImage] up to [await createImagePreview(file)]; the result
    tells whether the function is suspended there ([true]) or has
    already completed, its [finally] clause included ([false]). *)
Definition uploadImage_begin (file : File) : M Hook bool :=
  setError None ;;
  setIsUploading true ;;
  match validateImageFile file with
  | Returned validation =>
      if negb (isValid validation)
      then setError (Some (or_default (validation_error validation) "Invalid file")) ;;
           setIsUploading false ;;
           ret false
      else ret true
  | Threw err => upload_catch err ;; ret false
  end.

(** [uploadImage] once the preview promise has settled. *)
Definition uploadImage_resume (file : File) (outcome : Settled string) : M Hook unit :=
  match outcome with
  | Fulfilled previewUrl =>
      setImage (Some file) ;;
      setPreview (Some previewUrl) ;;
      setIsUploading false
  | Rejected err => upload_catch err
  end.

(** A whole invocation when nothing else runs while it is suspended. *)
Definition uploadImage (file : File) (outcome : Settled string) : M Hook unit :=
  suspended <- uploadImage_begin file ;;
  if suspended then uploadImage_resume file outcome else ret tt.

End Upload.

Definition clearImage : M Hook unit :=
  setImage None ;;
  setPreview None ;;
  setError None.

End UseImageUpload.

(** ** app/page.tsx: [simulateProgress] *)

Module Page.

Local Open Scope Q_scope.

(** The [processingStatus] cell.  [message] is [None] when the value stored
    is [undefined], which is what reading an array past its end gives. *)
Record Status : Type := mkStatus {
  isProcessing : bool;
  progress : Q;
  message : option string
}.

Definition messages : list string :=
  [ "Analyzing image..."%string;
    "Detecting pose..."%string;
    "Processing garments..."%string;
    "Generating result..."%string ].

(** [a[i]] for an integral index: [undefined] outside the array. *)
Definition array_get {A : Type} (a : list A) (i : Z) : option A :=
  if (i <? 0)%Z then None else nth_error a (Z.to_nat i).

(** The closure of [simulateProgress]: the [processingStatus] cell, the
    local [progress], whether the interval is still set, and every status
    the interval callback has published, oldest first. *)
Record Sim : Type := mkSim {
  processingStatus : Status;
  local_progress : Q;
  interval : bool;
  published : list Status
}.

(** [progress += Math.random() * 30; if (progress > 90) progress = 90].
    The sum is exact here, where a double rounds it; what is stated of the
    program below are facts of order (bounds, monotonicity, thresholds)
    that rounding to the nearest double preserves, not exact sums. *)
Definition advance (p r : Q) : Q :=
  let p' := p + r * 30 in
  if Qle_bool p' 90 then p' else 90.

(** [Math.floor(progress / 25)] *)
Definition messageIndex (p : Q) : Z := Qfloor (p / 25).

(** [Math.min(messageIndex, messages.length - 1)] *)
Definition clampedIndex (p : Q) : Z :=
  Z.min (messageIndex p) (Z.of_nat (length messages) - 1).

(** The status the callback stores: [{...prev, progress: Math.min(progress,
    100), message: messages[...]}]. *)
Definition publish (prev : Status) (p : Q) : Status :=
  mkStatus (isProcessing prev) (Qmin p 100) (array_get messages (clampedIndex p)).

(** One firing of the interval callback, [r] being the value returned by
    [Math.random()].  A cleared interval does not fire. *)
Definition tick (r : Q) (s : Sim) : Sim :=
  if interval s
  then
    let p := advance (local_progress s) r in
    let st := publish (processingStatus s) p in
    mkSim st p (negb (Qle_bool 90 p)) (published s ++ [st])
  else s.

(** [handleProcess] sets the status, then calls [simulateProgress], which
    starts from [progress = 0] with the interval set. *)
Definition simulateProgress : Sim :=
  mkSim (mkStatus true 0 (Some "Starting processing..."%string)) 0 true [].

Fixpoint ticks (rs : list Q) (s : Sim) : Sim :=
  match rs with
  | [] => s
  | r :: rs' => ticks rs' (tick r s)
  end.

(** The range of [Math.random()]. *)
Definition random_value (r : Q) : Prop := 0 <= r /\ r < 1.

(** A list of numbers that never goes down. *)
Fixpoint non_decreasing (l : list Q) : Prop :=
  match l with
  | [] => True
  | x :: l' =>
      match l' with
      | [] => True
      | y :: _ => x <= y /\ non_decreasing l'
      end
  end.

(** A published status as the progress bar expects it. *)
Definition well_published (st : Status) : Prop :=
  0 <= progress st /\ progress st <= 90
  /\ exists m, message st = Some m /\ In m messages.

(** What every firing of the callback preserves. *)
Definition invariant (s : Sim) : Prop :=
  0 <= local_progress s /\ local_progress s <= 90
  /\ Forall (fun st => well_published st /\ progress st <= local_progress s)
            (published s)
  /\ non_decreasing (map progress (published s)).

End Page.

(** ** Reading the log of the [useProcessing] hook *)

Module UseProcessingRuns.

Import UseProcessing.

(** The handles passed to [clearInterval], in order. *)
Fixpoint clears (l : list Effect) : list Timer :=
  match l with
  | [] => []
  | ClearInterval t :: l' => t :: clears l'
  | _ :: l' => clears l'
  end.

(** The two events that are calls of [startTryOn] or [startTryOff]. *)
Definition is_start (e : Event) : bool :=
  match e with
  | CallStartTryOn _ => true
  | CallStartTryOff _ => true
  | _ => false
  end.

(** A response that passes the test of [startTryOn] and [startTryOff]:
    successful, with the job id [jobId], which is not empty. *)
Definition accepts (response : Types.ApiResponse) (jobId : string) : Prop :=
  Types.success response = true
  /\ response_jobId response = Some jobId
  /\ jobId <> "".

End UseProcessingRuns.

(** ** The [ImageUpload] component driven by a sequence of events *)

Module ImageUploadRuns.

Import ImageUpload.

(** The files for which a [FileReader] was started, read off a log. *)
Fixpoint reads (l : list Effect) : list File :=
  match l with
  | [] => []
  | ReadAsDataURL f :: l' => f :: reads l'
  | _ :: l' => reads l'
  end.

(** [file.type.startsWith('image/')] *)
Definition is_image (file : File) : bool := String.prefix "image/" (type file).

Definition same_file (f g : File) : bool :=
  (name f =? name g) && (type f =? type g) && (size f =? size g)%Z.

(** How many times [f] occurs in a list of files. *)
Definition times (f : File) (l : list File) : nat :=
  length (filter (same_file f) l).

(** A reader of [f] is still at work: [f] was read more often than its
    [onloadend] has run. *)
Definition reading (c : Component) (f : File) : bool :=
  (times f (uploads (log c)) <? times f (reads (log c)))%nat.

Inductive Event : Type :=
| Drag (e : DragEvent)
| Drop (e : DragEvent)
| Choose (target_files : list File)
| LoadEnd (file : File) (result : option string)
| Clear.

(** One event; [onloadend] can only fire for a reader that is at work. *)
Definition step (e : Event) (c : Component) : option Component :=
  match e with
  | Drag d => Some (exec (handleDrag d) c)
  | Drop d => Some (exec (handleDrop d) c)
  | Choose target_files => Some (exec (handleFileInput target_files) c)
  | LoadEnd file result =>
      if reading c file then Some (exec (onloadend file result) c) else None
  | Clear => Some (exec clearImage c)
  end.

Fixpoint run (es : list Event) (c : Component) : option Component :=
  match es with
  | [] => Some c
  | e :: es' =>
      match step e c with
      | Some c' => run es' c'
      | None => None
      end
  end.

(** Only image files are read and reported, and no file is reported more
    often than it was read. *)
Definition consistent (c : Component) : Prop :=
  Forall (fun f => is_image f = true) (reads (log c))
  /\ Forall (fun f => is_image f = true) (uploads (log c))
  /\ forall f, (times f (uploads (log c)) <= times f (reads (log c)))%nat.

End ImageUploadRuns.

(** ** app/page.tsx: the [Home] component around [simulateProgress] *)

Module Home.

Local Open Scope eff_scope.

Inductive Mode : Type := try_on | try_off.

Definition is_try_on (m : Mode) : bool :=
  match m with
  | try_on => true
  | try_off => false
  end.

(** The first argument of [handleImageUpload]: ['model' | 'garment']. *)
Inductive Slot : Type := slot_model | slot_garment.

Record UploadedImages : Type := mkUploadedImages {
  model : option File;
  garment : option File
}.

Record Garment : Type := mkGarment {
  garment_type : Types.GarmentType;
  garment_imageUrl : string
}.

Record Result : Type := mkResult {
  imageUrl : option string;
  extractedGarments : option (list Garment)
}.

(** [alert], the call of [simulateProgress], [setTimeout] with the mode its
    callback has captured, and [console.error]. *)
Inductive Effect : Type :=
| Alert (text : string)
| SimulateProgress
| SetTimeout (started_as : Mode) (ms : Z)
| ConsoleError.

(** The four [useState] cells and the log. *)
Record State : Type := mkState {
  mode : Mode;
  uploadedImages : UploadedImages;
  processingStatus : Page.Status;
  result : Result;
  log : list Effect
}.

Definition initial : State :=
  mkState try_on (mkUploadedImages None None) (Page.mkStatus false 0%Q (Some ""))
          (mkResult None None) [].

Definition setMode (m : Mode) : M State unit :=
  modify (fun s => mkState m (uploadedImages s) (processingStatus s) (result s) (log s)).

Definition setUploadedImages (f : UploadedImages -> UploadedImages) : M State unit :=
  modify (fun s => mkState (mode s) (f (uploadedImages s)) (processingStatus s) (result s) (log s)).

Definition setProcessingStatus (st : Page.Status) : M State unit :=
  modify (fun s => mkState (mode s) (uploadedImages s) st (result s) (log s)).

Definition setResult (r : Result) : M State unit :=
  modify (fun s => mkState (mode s) (uploadedImages s) (processingStatus s) r (log s)).

Definition emit (e : Effect) : M State unit :=
  modify (fun s => mkState (mode s) (uploadedImages s) (processingStatus s) (result s)
                           (log s ++ [e])).

(** [setUploadedImages(prev => ({...prev, [type]: file}))] *)
Definition handleImageUpload (slot : Slot) (file : File) : M State unit :=
  setUploadedImages
    (fun prev =>
       match slot with
       | slot_model => mkUploadedImages (Some file) (garment prev)
       | slot_garment => mkUploadedImages (model prev) (Some file)
       end).

Definition is_some {A : Type} (o : option A) : bool :=
  match o with
  | Some _ => true
  | None => false
  end.

(** The status set when processing starts. *)
Definition starting : Page.Status :=
  Page.mkStatus true 0%Q (Some "Starting processing...").

(** The status set by the callback of [setTimeout]. *)
Definition finished : Page.Status :=
  Page.mkStatus false 100%Q (Some "Processing complete!").

(** The status set by the [catch] clause. *)
Definition failed : Page.Status :=
  Page.mkStatus false 0%Q (Some "Processing failed. Please try again.").

(** [handleProcess] when nothing in its [try] block throws.  The form data
    and the endpoint it builds are not used by anything. *)
Definition handleProcess : M State unit :=
  images <- gets uploadedImages ;;
  m <- gets mode ;;
  if negb (is_some (model images))
  then emit (Alert "Please upload a model image")
  else if is_try_on m && negb (is_some (garment images))
       then emit (Alert "Please upload a garment image for try-on")
       else setProcessingStatus starting ;;
            emit SimulateProgress ;;
            emit (SetTimeout m 3000).

(** The [catch] clause of [handleProcess]. *)
Definition handleProcess_catch : M State unit :=
  emit ConsoleError ;;
  setProcessingStatus failed.

(** The callback given to [setTimeout], with the mode it has captured. *)
Definition timeout_callback (started_as : Mode) : M State unit :=
  setResult
    (mkResult (Some "/api/placeholder/400/600")
              (if is_try_on started_as
               then None
               else Some [ mkGarment Types.upper "/api/placeholder/200/300";
                           mkGarment Types.lower "/api/placeholder/200/300" ])) ;;
  setProcessingStatus finished.

(** A series of calls of [handleImageUpload]. *)
Fixpoint upload_all (calls : list (Slot * File)) (s : State) : State :=
  match calls with
  | [] => s
  | (slot, file) :: rest => upload_all rest (exec (handleImageUpload slot file) s)
  end.


(** Its [disabled] attribute. *)
Definition disabled (s : State) : bool :=
  negb (is_some (model (uploadedImages s)))
  || (is_try_on (mode s) && negb (is_some (garment (uploadedImages s)))).

(** [(result.imageUrl || result.extractedGarments) && <ResultDisplay />]:
    an array is truthy even when empty. *)
Definition result_shown (s : State) : bool :=
  truthy_opt (imageUrl (result s)) || is_some (extractedGarments (result s)).

(** The callback of [setTimeout] as the closure of [simulateProgress] sees
    it: the status cell is replaced, the closure's own variables are not. *)
Definition complete (s : Page.Sim) : Page.Sim :=
  Page.mkSim finished (Page.local_progress s) (Page.interval s) (Page.published s).

(** The sum of the values [Math.random()] has returned. *)
Fixpoint total (rs : list Q) : Q :=
  match rs with
  | [] => 0%Q
  | r :: rs' => (r + total rs')%Q
  end.

(** The closure's variables after a firing, in terms of the sum [S] of all
    increments so far. *)
Definition tracks (s : Page.Sim) (S : Q) : Prop :=
  (Page.local_progress s == Qmin 90 S)%Q
  /\ Page.interval s = negb (Qle_bool 90 S).

(** While the simulation runs every status it has published satisfies [P]. *)
Definition publishing (P : Page.Status -> Prop) (s : Page.Sim) : Prop :=
  (0 <= Page.local_progress s)%Q /\ (Page.local_progress s <= 90)%Q
  /\ Page.isProcessing (Page.processingStatus s) = true
  /\ Forall P (Page.published s).

(** The message that goes with a progress value, by quarters. *)
Definition band (p : Q) : string :=
  if Qle_bool 75 p then "Generating result..."
  else if Qle_bool 50 p then "Processing garments..."
       else if Qle_bool 25 p then "Detecting pose..."
            else "Analyzing image...".

End Home.

(** ** components/ProcessingStatus.tsx *)

Module ProcessingStatus.

(** What the panel shows: the heading, the message, the rounded percentage,
    the width of the bar in percent, and whether the hint line is there. *)
Record View : Type := mkView {
  heading : string;
  text : option string;
  percent : Z;
  width : Q;
  hint : bool
}.

(** [Math.round]: the nearest integer, halves going up. *)
Definition round (x : Q) : Z := Qfloor (x + (1 # 2)).

(** [null] when [!status.isProcessing && status.progress === 0]. *)
Definition render (status : Page.Status) : option View :=
  if negb (Page.isProcessing status) && Qeq_bool (Page.progress status) 0
  then None
  else Some (mkView (if Page.isProcessing status then "Processing..." else "Complete!")
                    (Page.message status)
                    (round (Page.progress status))
                    (Page.progress status)
                    (Page.isProcessing status)).

End ProcessingStatus.

(** ** The [ResultDisplay] component *)

Module ResultDisplay.

(** The image of a try-on result and the file name of its download. *)
Record ImageSection : Type := mkImageSection {
  image_src : string;
  image_download : string
}.

(** One extracted garment: image, alternative text, badge, download name. *)
Record Card : Type := mkCard {
  card_src : string;
  card_alt : string;
  card_label : string;
  card_download : string
}.

Record View : Type := mkView {
  heading : string;
  image : option ImageSection;
  garments : option (list Card)
}.

Definition type_name (t : Types.GarmentType) : string :=
  match t with
  | Types.upper => "upper"
  | Types.lower => "lower"
  | Types.full => "full"
  end.

(** [toUpperCase] on one character, for the letters a to z. *)
Definition toUpperCase (c : Ascii.ascii) : Ascii.ascii :=
  let n := Ascii.nat_of_ascii c in
  if ((97 <=? n) && (n <=? 122))%nat then Ascii.ascii_of_nat (n - 32) else c.

(** [s.charAt(0).toUpperCase() + s.slice(1)] *)
Definition capitalize (s : string) : string :=
  match s with
  | EmptyString => EmptyString
  | String c rest => String (toUpperCase c) rest
  end.

Definition card (g : Home.Garment) : Card :=
  let t := type_name (Home.garment_type g) in
  mkCard (Home.garment_imageUrl g)
         (String.append "Extracted " (String.append t " garment"))
         (capitalize t)
         (String.append "extracted-" (String.append t "-garment.png")).

(** The two sections are guarded by [mode === 'try-on' && result.imageUrl]
    and [mode === 'try-off' && result.extractedGarments]. *)
Definition render (result : Home.Result) (mode : Home.Mode) : View :=
  mkView (if Home.is_try_on mode then "Try-On Result" else "Extracted Garments")
         (if Home.is_try_on mode
          then match Home.imageUrl result with
               | Some url => if truthy url
                             then Some (mkImageSection url "try-on-result.png")
                             else None
               | None => None
               end
          else None)
         (if Home.is_try_on mode
          then None
          else option_map (map card) (Home.extractedGarments result)).

(** What [Home] shows of the result. *)
Definition shown (s : Home.State) : option View :=
  if Home.result_shown s
  then Some (render (Home.result s) (Home.mode s))
  else None.

End ResultDisplay.

(** ** Sample data: a try-on job observed half way *)

Module Samples.

Import UseProcessing.

Definition model_png : File := mkFile "model.png" "image/png" 2048.
Definition garment_png : File := mkFile "shirt.png" "image/png" 1024.
Definition notes_txt : File := mkFile "notes.txt" "text/plain" 12.

Definition request : Types.TryOnRequest :=
  Types.mkTryOnRequest model_png garment_png None.

Definition off_request : Types.TryOffRequest :=
  Types.mkTryOffRequest model_png None.

Definition accepted : Types.ApiResponse :=
  Types.mkApiResponse true (Some (Types.mkSubmitData (Some "J1"))) None None.

Definition refused : Types.ApiResponse :=
  Types.mkApiResponse false None (Some "Unsupported image") None.

Definition snapshot (status : string) (progress : Q) (message : string)
  : Types.ProcessingJob :=
  Types.mkProcessingJob "J1" status progress message 0 None None.

(** The hook after a try-on was submitted, accepted, and one status was
    polled: processing, 40 percent. *)
Definition active : Hook :=
  run [ CallStartTryOn request;
        TryOnSettled (Fulfilled accepted);
        Snapshot (snapshot "processing" 40 "Detecting pose...") ] initial.

(** The hook after the job was then reported completed. *)
Definition completed : Hook :=
  run [ Snapshot (snapshot "completed" 100 "Done") ] active.

(** The hook after the job was instead cancelled and the server agreed. *)
Definition cancelled : Hook :=
  run [ CallCancel; CancelSettled (Fulfilled tt) ] active.

(** The hook between the call of [startTryOn] and the submit response. *)
Definition submitting : Hook :=
  run [ CallStartTryOn request ] initial.

(** A stand-in for [validateImageFile]: accepts files of an image type. *)
Definition validate_by_type (file : File)
  : UseImageUpload.Completion UseImageUpload.Validation :=
  UseImageUpload.Returned
    (UseImageUpload.mkValidation
       (String.prefix "image/" (type file))
       (if String.prefix "image/" (type file) then None else Some "Unsupported file type")).

End Samples.

(** ** Facts about the [useProcessing] hook *)

Module UseProcessingFacts.

Import UseProcessing.

(** Unfolds a handler down to the record it builds. *)
Ltac hook_unfold :=
  unfold exec, startTryOn, startTryOff, startTryOn_begin, startTryOff_begin,
    startTryOn_resume, startTryOff_resume, start_catch, cancelProcessing,
    cancelProcessing_begin, cancelProcessing_resume, reset, updateJobStatus,
    poll_then, poll_catch, clearPolling, when, setIsProcessing, setProgress,
    setMessage, setJob, setError, setPollingRef, emit, bind, ret, gets, modify;
  cbn [fst snd isProcessing progress message job error pollingRef log].

Lemma truthy_true (s : string) : truthy s = true <-> s <> "".
Proof.
  unfold truthy. rewrite negb_true_iff. apply String.eqb_neq.
Qed.

Lemma app_nil_end_eq {A : Type} (l : list A) : l = l ++ [].
Proof. now rewrite app_nil_r. Qed.

(** What [clearPolling] leaves behind, whatever the handle was. *)
Lemma clearPolling_spec (h : Hook) :
  let h' := exec clearPolling h in
  pollingRef h' = None
  /\ log h' = log h ++ match pollingRef h with
                       | Some t => [ClearInterval t]
                       | None => []
                       end
  /\ observable h' = observable h
  /\ error h' = error h.
Proof.
  destruct h as [ip pr ms jb er [t|] lg]; hook_unfold; cbn;
    repeat split; auto using app_nil_end_eq.
Qed.

(** The sample states, evaluated. *)
Example active_observable :
  observable Samples.active
  = (true, 40%Q, "Detecting pose...",
     Some (Samples.snapshot "processing" 40 "Detecting pose...")).
Proof. reflexivity. Qed.

Example active_log :
  log Samples.active = [SubmitTryOn Samples.request; PollJobStatus "J1"].
Proof. reflexivity. Qed.

Example completed_observable :
  observable Samples.completed
  = (false, 100%Q, "Done", Some (Samples.snapshot "completed" 100 "Done")).
Proof. reflexivity. Qed.

Example cancelled_observable :
  observable Samples.cancelled = (false, 0%Q, "", None).
Proof. reflexivity. Qed.

(** The hook never stores a handle in [pollingRef]: from the initial state
    it stays [null] and [clearInterval] is never called. *)
Lemma handle_keeps_pollingRef_null (e : Event) (h : Hook) :
  pollingRef h = None -> pollingRef (exec (handle e) h) = None.
Proof.
  destruct h as [ip pr ms jb er pl lg]; cbn [pollingRef]; intros ->.
  destruct e as [r|[resp|err]|r|[resp|err]|js|l|err| |[u|err]| ];
    unfold handle; hook_unfold; try reflexivity.
  - destruct (negb (Types.success resp) || negb (truthy_opt (response_jobId resp)));
      reflexivity.
  - destruct (negb (Types.success resp) || negb (truthy_opt (response_jobId resp)));
      reflexivity.
  - destruct ((Types.status js =? "completed") || (Types.status js =? "failed"));
      reflexivity.
  - destruct err; reflexivity.
  - destruct jb as [j|]; [destruct (truthy (Types.id j))|]; reflexivity.
Qed.

Lemma run_keeps_pollingRef_null (es : list Event) :
  forall h, pollingRef h = None -> pollingRef (run es h) = None.
Proof.
  induction es as [|e es IH]; intros h Hh; cbn [run]; auto.
  apply IH, handle_keeps_pollingRef_null, Hh.
Qed.

(** *** Starting while a job is in flight *)

(** The synchronous part of a start call leaves [job] alone and logs the
    submit. *)
Lemma start_begin_job_log (h : Hook) :
  (forall request,
      job (exec (startTryOn_begin request) h) = job h
      /\ log (exec (startTryOn_begin request) h) = log h ++ [SubmitTryOn request])
  /\ (forall request,
         job (exec (startTryOff_begin request) h) = job h
         /\ log (exec (startTryOff_begin request) h) = log h ++ [SubmitTryOff request]).
Proof.
  destruct h as [ip pr ms jb er pl lg].
  split; intros request; hook_unfold; split; reflexivity.
Qed.


(** C1, as the code has it: [startTryOn] and [startTryOff] have no busy
    check.  From every state, and so also while [isProcessing] is true, the
    synchronous part of the call keeps [isProcessing] true, leaves [job] and
    the timer handle alone, but puts [progress] back to 0, replaces
    [message] by the initialising text, clears [error], and issues the
    submit call. *)
Theorem start_is_not_guarded (h : Hook) :
  (forall request,
      let h' := exec (startTryOn_begin request) h in
      isProcessing h' = true
      /\ progress h' = 0%Q
      /\ message h' = "Initializing try-on process..."
      /\ error h' = None
      /\ job h' = job h
      /\ pollingRef h' = pollingRef h
      /\ log h' = log h ++ [SubmitTryOn request])
  /\ (forall request,
         let h' := exec (startTryOff_begin request) h in
         isProcessing h' = true
         /\ progress h' = 0%Q
         /\ message h' = "Initializing garment extraction..."
         /\ error h' = None
         /\ job h' = job h
         /\ pollingRef h' = pollingRef h
         /\ log h' = log h ++ [SubmitTryOff request]).
Proof.
  destruct h as [ip pr ms jb er pl lg].
  split; intros request; hook_unfold; repeat split; reflexivity.
Qed.

(** C1 fails as stated: with a job at 40 percent in flight, calling
    [startTryOn] (or [startTryOff]) changes the observable progress and
    message, and the submit call goes out. *)
Lemma start_while_active_overwrites :
  isProcessing Samples.active = true
  /\ observable (exec (startTryOn_begin Samples.request) Samples.active)
     = (true, 0%Q, "Initializing try-on process...",
        Some (Samples.snapshot "processing" 40 "Detecting pose..."))
  /\ observable (exec (startTryOn_begin Samples.request) Samples.active)
     <> observable Samples.active
  /\ observable (exec (startTryOff_begin Samples.off_request) Samples.active)
     <> observable Samples.active
  /\ log (exec (startTryOn_begin Samples.request) Samples.active)
     = log Samples.active ++ [SubmitTryOn Samples.request].
Proof.
  repeat split; try reflexivity; cbv; discriminate.
Qed.

(** *** Snapshots *)

(** [updateJobStatus] on any state: the three copies, then the terminal
    branch or nothing. *)
Lemma updateJobStatus_spec (jobStatus : Types.ProcessingJob) (h : Hook) :
  let h' := exec (updateJobStatus jobStatus) h in
  job h' = Some jobStatus
  /\ progress h' = Types.progress jobStatus
  /\ message h' = Types.message jobStatus
  /\ error h' = error h
  /\ isProcessing h' = (if settles jobStatus then false else isProcessing h)
  /\ pollingRef h' = (if settles jobStatus then None else pollingRef h)
  /\ log h' = log h ++ (if settles jobStatus
                        then match pollingRef h with
                             | Some t => [ClearInterval t]
                             | None => []
                             end
                        else []).
Proof.
  destruct h as [ip pr ms jb er pl lg]. unfold settles. hook_unfold.
  destruct ((Types.status jobStatus =? "completed") || (Types.status jobStatus =? "failed"));
    [destruct pl as [t|]|]; cbn; repeat split; auto using app_nil_end_eq.
Qed.

Lemma settles_true (jobStatus : Types.ProcessingJob) :
  settles jobStatus = true
  <-> Types.status jobStatus = "completed" \/ Types.status jobStatus = "failed".
Proof.
  unfold settles. rewrite orb_true_iff, !String.eqb_eq. tauto.
Qed.

Lemma settles_false (jobStatus : Types.ProcessingJob) :
  settles jobStatus = false
  <-> Types.status jobStatus <> "completed" /\ Types.status jobStatus <> "failed".
Proof.
  unfold settles. rewrite orb_false_iff, !String.eqb_neq. tauto.
Qed.

(** C2, as the code has it: [updateJobStatus] has no staleness check.  A
    snapshot applied when the timer handle is already cleared is applied
    like any other: [job], [progress] and [message] take the snapshot's
    values; [isProcessing] becomes false if the snapshot is completed or
    failed and is kept otherwise; [error], the cleared handle and the log
    stay as they are. *)
Theorem late_snapshot_is_applied (jobStatus : Types.ProcessingJob) (h : Hook) :
  pollingRef h = None ->
  let h' := exec (updateJobStatus jobStatus) h in
  job h' = Some jobStatus
  /\ progress h' = Types.progress jobStatus
  /\ message h' = Types.message jobStatus
  /\ isProcessing h' = (if settles jobStatus then false else isProcessing h)
  /\ error h' = error h
  /\ pollingRef h' = None
  /\ log h' = log h.
Proof.
  intros Hp h'.
  destruct (updateJobStatus_spec jobStatus h) as (Hj & Hpr & Hm & He & Hi & Hr & Hl).
  fold h' in Hj, Hpr, Hm, He, Hi, Hr, Hl.
  rewrite Hp in Hr, Hl.
  repeat split; auto.
  - rewrite Hr. now destruct (settles jobStatus).
  - rewrite Hl. destruct (settles jobStatus); now rewrite app_nil_r.
Qed.

Lemma late_snapshot_is_applied_witness :
  pollingRef Samples.cancelled = None
  /\ job (exec (updateJobStatus (Samples.snapshot "processing" 60 "Processing garments..."))
               Samples.cancelled)
     = Some (Samples.snapshot "processing" 60 "Processing garments...").
Proof.
  split; [reflexivity|].
  apply (late_snapshot_is_applied
           (Samples.snapshot "processing" 60 "Processing garments...")
           Samples.cancelled).
  reflexivity.
Defined.

(** C2 fails as stated: a snapshot arriving after the job completed, or
    after it was cancelled, changes what the hook shows.  The completed job
    goes back to processing at 60 percent; the cancelled job reappears. *)
Lemma late_snapshot_mutates :
  let late := Samples.snapshot "processing" 60 "Processing garments..." in
  pollingRef Samples.completed = None
  /\ isProcessing Samples.completed = false
  /\ observable (exec (updateJobStatus late) Samples.completed)
     = (false, 60%Q, "Processing garments...", Some late)
  /\ observable (exec (updateJobStatus late) Samples.completed)
     <> observable Samples.completed
  /\ pollingRef Samples.cancelled = None
  /\ job Samples.cancelled = None
  /\ job (exec (updateJobStatus late) Samples.cancelled) = Some late
  /\ observable (exec (updateJobStatus late) Samples.cancelled)
     <> observable Samples.cancelled.
Proof.
  repeat split; try reflexivity; cbv; discriminate.
Qed.

(** C4, as the code has it: the terminal branch of [updateJobStatus] is
    taken for the statuses completed and failed only.  For those
    [isProcessing] becomes false, the handle is null afterwards and
    [clearInterval] is called once on the handle that was held (not at all
    when none was held).  For every other status, pending, processing and
    cancelled among them, [isProcessing], the handle and the log are left
    as they were. *)
Theorem terminal_branch_is_completed_or_failed
        (jobStatus : Types.ProcessingJob) (h : Hook) :
  let h' := exec (updateJobStatus jobStatus) h in
  (Types.status jobStatus = "completed" \/ Types.status jobStatus = "failed" ->
   isProcessing h' = false
   /\ pollingRef h' = None
   /\ log h' = log h ++ cleared (pollingRef h))
  /\ (Types.status jobStatus <> "completed" ->
      Types.status jobStatus <> "failed" ->
      isProcessing h' = isProcessing h
      /\ pollingRef h' = pollingRef h
      /\ log h' = log h).
Proof.
  intros h'.
  destruct (updateJobStatus_spec jobStatus h) as (_ & _ & _ & _ & Hi & Hr & Hl).
  fold h' in Hi, Hr, Hl.
  split.
  - intros Hs. apply settles_true in Hs. rewrite Hs in Hi, Hr, Hl. auto.
  - intros Hc Hf. assert (Hs : settles jobStatus = false) by now apply settles_false.
    rewrite Hs in Hi, Hr, Hl. rewrite app_nil_r in Hl. auto.
Qed.

Lemma terminal_branch_is_completed_or_failed_witness :
  isProcessing (exec (updateJobStatus (Samples.snapshot "failed" 70 "Out of memory"))
                     Samples.active) = false
  /\ isProcessing (exec (updateJobStatus (Samples.snapshot "pending" 0 "Queued"))
                        Samples.active) = isProcessing Samples.active.
Proof.
  split.
  - apply (terminal_branch_is_completed_or_failed
             (Samples.snapshot "failed" 70 "Out of memory") Samples.active).
    right; reflexivity.
  - apply (terminal_branch_is_completed_or_failed
             (Samples.snapshot "pending" 0 "Queued") Samples.active);
      cbn; discriminate.
Defined.

(** C4 fails as stated for the status cancelled: the snapshot is stored
    but processing is not settled, and a held timer handle is neither
    cleared nor forgotten. *)
Lemma cancelled_snapshot_does_not_settle :
  let gone := Samples.snapshot "cancelled" 40 "Cancelled by user" in
  let held := mkHook true 40 "Detecting pose..." None None (Some 7%nat) [] in
  isProcessing Samples.active = true
  /\ isProcessing (exec (updateJobStatus gone) Samples.active) = true
  /\ isProcessing (exec (updateJobStatus gone) held) = true
  /\ pollingRef (exec (updateJobStatus gone) held) = Some 7%nat
  /\ log (exec (updateJobStatus gone) held) = [].
Proof.
  repeat split; reflexivity.
Qed.

(** *** Cancelling *)

(** C3, as the code has it: [cancelProcessing] awaits the cancel call
    inside [try] and resets the local state after it.  With a job whose id
    is not empty: if the cancel call succeeds, the state takes the idle
    shape ([isProcessing] false, [progress] 0, [message] empty, [job] null,
    handle cleared) and [error] is kept; if the cancel call fails, only
    [error] is set and everything else, [isProcessing] and [job] included,
    stays as it was.  With no job, as while a first submit is pending, or
    with an empty id, the call does nothing. *)
Theorem cancel_resets_only_on_success (h : Hook) :
  (forall j outcome,
      job h = Some j ->
      Types.id j <> "" ->
      let h' := exec (cancelProcessing outcome) h in
      match outcome with
      | Fulfilled _ =>
          isProcessing h' = false
          /\ progress h' = 0%Q
          /\ message h' = ""
          /\ job h' = None
          /\ pollingRef h' = None
          /\ error h' = error h
          /\ log h' = log h ++ CancelJob (Types.id j) :: cleared (pollingRef h)
      | Rejected err =>
          error h' = Some (error_message err "Failed to cancel processing")
          /\ observable h' = observable h
          /\ pollingRef h' = pollingRef h
          /\ log h' = log h ++ [CancelJob (Types.id j)]
      end)
  /\ (forall outcome,
         job h = None \/ (exists j, job h = Some j /\ Types.id j = "") ->
         exec (cancelProcessing outcome) h = h).
Proof.
  destruct h as [ip pr ms jb er pl lg]; cbn [job pollingRef log error].
  split.
  - intros j outcome -> Hid. apply truthy_true in Hid.
    hook_unfold. rewrite Hid. hook_unfold.
    destruct outcome as [u|err]; hook_unfold.
    + destruct pl as [t|]; cbn; repeat split; try reflexivity.
      now rewrite <- app_assoc.
    + repeat split; reflexivity.
  - intros outcome [->|(j & -> & Hid)]; hook_unfold; [reflexivity|].
    rewrite Hid. reflexivity.
Qed.

Lemma cancel_resets_only_on_success_witness :
  job Samples.active = Some (Samples.snapshot "processing" 40 "Detecting pose...")
  /\ isProcessing (exec (cancelProcessing (Fulfilled tt)) Samples.active) = false
  /\ error (exec (cancelProcessing (Rejected (ThrownError "Network Error")))
                 Samples.active) = Some "Network Error"
  /\ exec (cancelProcessing (Fulfilled tt)) Samples.submitting = Samples.submitting.
Proof.
  split; [reflexivity|]. split; [|split].
  - apply (proj1 (cancel_resets_only_on_success Samples.active)
                 (Samples.snapshot "processing" 40 "Detecting pose...")
                 (Fulfilled tt)); [reflexivity | discriminate].
  - apply (proj1 (cancel_resets_only_on_success Samples.active)
                 (Samples.snapshot "processing" 40 "Detecting pose...")
                 (Rejected (ThrownError "Network Error")));
      [reflexivity | discriminate].
  - apply (proj2 (cancel_resets_only_on_success Samples.submitting) (Fulfilled tt)).
    left; reflexivity.
Defined.

(** C3 fails as stated: when the cancel call is rejected the job in flight
    is still there and still processing; and while the first submit is
    pending there is no job to cancel, so even a cancel the server would
    accept leaves [isProcessing] true. *)
Lemma cancel_failure_keeps_job :
  let h' := exec (cancelProcessing (Rejected (ThrownError "Network Error")))
                 Samples.active in
  isProcessing Samples.active = true
  /\ isProcessing h' = true
  /\ job h' = Some (Samples.snapshot "processing" 40 "Detecting pose...")
  /\ error h' = Some "Network Error"
  /\ isProcessing Samples.submitting = true
  /\ isProcessing (exec (cancelProcessing (Fulfilled tt)) Samples.submitting) = true.
Proof.
  repeat split; reflexivity.
Qed.

(** *** Resetting *)

(** The cells after [reset]: from every state it gives [isProcessing] false,
    [progress] 0, an empty [message], no [job], no [error] and a null
    [pollingRef]; a handle that was held there has been passed to
    [clearInterval]. *)
Theorem reset_yields_idle (h : Hook) :
  let h' := exec reset h in
  isProcessing h' = false
  /\ progress h' = 0%Q
  /\ message h' = ""
  /\ job h' = None
  /\ error h' = None
  /\ pollingRef h' = None
  /\ log h' = log h ++ cleared (pollingRef h).
Proof.
  destruct h as [ip pr ms jb er [t|] lg]; hook_unfold; cbn;
    repeat split; auto using app_nil_end_eq.
Qed.

(** *** A submit that fails *)

Lemma start_catch_spec (err : Thrown) (h : Hook) :
  let h' := exec (start_catch err) h in
  error h' = Some (error_message err "Failed to start processing")
  /\ isProcessing h' = false
  /\ progress h' = progress h
  /\ message h' = message h
  /\ job h' = job h
  /\ pollingRef h' = pollingRef h
  /\ log h' = log h.
Proof.
  destruct h as [ip pr ms jb er pl lg]; hook_unfold; repeat split; reflexivity.
Qed.

Lemma failed_guard (response : Types.ApiResponse) :
  Types.success response = false \/ truthy_opt (response_jobId response) = false ->
  negb (Types.success response) || negb (truthy_opt (response_jobId response)) = true.
Proof.
  intros [-> | ->]; [reflexivity | apply orb_true_r].
Qed.

(** C6, as the code has it: when the submit call of [startTryOn] or
    [startTryOff] fails, by an unsuccessful response, a response without job
    id or a rejected promise, then in whatever state the continuation runs
    [error] is set to a message, [isProcessing] becomes false and nothing is
    added to the log: polling is not started.  [job] is not touched: neither
    function ever calls [setJob], so the hook keeps the job it held before
    the call, which is null only if it was null. *)
Theorem submit_failure_returns_to_idle
        (outcome : Settled Types.ApiResponse) (h : Hook) :
  submit_failed outcome ->
  (forall resume,
      resume = startTryOn_resume \/ resume = startTryOff_resume ->
      let h' := exec (resume outcome) h in
      (exists msg, error h' = Some msg)
      /\ isProcessing h' = false
      /\ job h' = job h
      /\ pollingRef h' = pollingRef h
      /\ log h' = log h)
  /\ (forall request,
         let h' := exec (startTryOn request outcome) h in
         (exists msg, error h' = Some msg)
         /\ isProcessing h' = false
         /\ job h' = job h
         /\ polled (log h') = polled (log h))
  /\ (forall request,
         let h' := exec (startTryOff request outcome) h in
         (exists msg, error h' = Some msg)
         /\ isProcessing h' = false
         /\ job h' = job h
         /\ polled (log h') = polled (log h)).
Proof.
  intros Hfail.
  assert (Hresume : forall resume,
             resume = startTryOn_resume \/ resume = startTryOff_resume ->
             forall h0, exists err,
               exec (resume outcome) h0 = exec (start_catch err) h0).
  { intros resume [-> | ->] h0; destruct outcome as [response|err]; cbn in Hfail.
    - unfold startTryOn_resume. rewrite (failed_guard _ Hfail). eauto.
    - exists err. reflexivity.
    - unfold startTryOff_resume. rewrite (failed_guard _ Hfail). eauto.
    - exists err. reflexivity. }
  assert (Hpolled : forall l e, (forall jobId, e <> PollJobStatus jobId) ->
                                polled (l ++ [e]) = polled l).
  { intros l e He. induction l as [|x l IH]; cbn.
    - destruct e; try reflexivity. now destruct (He jobId).
    - destruct x; cbn; now rewrite IH. }
  split; [|split].
  - intros resume Hr h'. destruct (Hresume resume Hr h) as (err & Heq).
    subst h'. rewrite Heq.
    destruct (start_catch_spec err h) as (He & Hi & _ & _ & Hj & Hp & Hl).
    repeat split; eauto.
  - intros request h'.
    destruct (Hresume startTryOn_resume (or_introl eq_refl)
                      (exec (startTryOn_begin request) h)) as (err & Heq).
    assert (Hh' : h' = exec (start_catch err) (exec (startTryOn_begin request) h)).
    { subst h'. rewrite <- Heq. unfold startTryOn, exec, bind.
      now destruct (startTryOn_begin request h). }
    rewrite Hh'.
    destruct (start_catch_spec err (exec (startTryOn_begin request) h))
      as (He & Hi & _ & _ & Hjb & _ & Hl).
    destruct (proj1 (start_begin_job_log h) request) as (Hbj & Hbl).
    split; [eauto|]. split; [exact Hi|]. split.
    + rewrite Hjb, Hbj. reflexivity.
    + rewrite Hl, Hbl. apply Hpolled. discriminate.
  - intros request h'.
    destruct (Hresume startTryOff_resume (or_intror eq_refl)
                      (exec (startTryOff_begin request) h)) as (err & Heq).
    assert (Hh' : h' = exec (start_catch err) (exec (startTryOff_begin request) h)).
    { subst h'. rewrite <- Heq. unfold startTryOff, exec, bind.
      now destruct (startTryOff_begin request h). }
    rewrite Hh'.
    destruct (start_catch_spec err (exec (startTryOff_begin request) h))
      as (He & Hi & _ & _ & Hjb & _ & Hl).
    destruct (proj2 (start_begin_job_log h) request) as (Hbj & Hbl).
    split; [eauto|]. split; [exact Hi|]. split.
    + rewrite Hjb, Hbj. reflexivity.
    + rewrite Hl, Hbl. apply Hpolled. discriminate.
Qed.

Lemma submit_failure_returns_to_idle_witness :
  submit_failed (Fulfilled Samples.refused)
  /\ isProcessing (exec (startTryOn Samples.request (Fulfilled Samples.refused))
                        Samples.completed) = false
  /\ job (exec (startTryOn Samples.request (Fulfilled Samples.refused)) Samples.completed)
     = job Samples.completed.
Proof.
  split; [left; reflexivity|].
  destruct (proj1 (proj2 (submit_failure_returns_to_idle
                            (Fulfilled Samples.refused) Samples.completed
                            (or_introl eq_refl)))
                  Samples.request) as (_ & Hidle & Hjob & _).
  split; [exact Hidle | exact Hjob].
Defined.

(** C6 fails as stated: a submission that is refused while the hook still
    holds the job of an earlier run (here the completed job J1) ends with
    that job still in the hook, not with no job. *)
Lemma failed_submit_keeps_earlier_job :
  let h' := exec (startTryOn Samples.request (Fulfilled Samples.refused))
                 Samples.completed in
  submit_failed (Fulfilled Samples.refused)
  /\ job Samples.completed = Some (Samples.snapshot "completed" 100 "Done")
  /\ error h' = Some "Unsupported image"
  /\ isProcessing h' = false
  /\ job h' = Some (Samples.snapshot "completed" 100 "Done")
  /\ job h' <> None
  /\ job (exec (startTryOff Samples.off_request (Rejected (ThrownError "Network Error")))
               Samples.active)
     = Some (Samples.snapshot "processing" 40 "Detecting pose...").
Proof.
  split; [left; reflexivity|].
  repeat split; try reflexivity. discriminate.
Qed.

End UseProcessingFacts.

(** ** Facts about the [ImageUpload] component *)

Module ImageUploadFacts.

Import ImageUpload.

Ltac component_unfold :=
  unfold exec, handleDrop, handleFileInput, handleFile, onloadend, handleDrag,
    clearImage, setDragActive, setUploadedImage, emit, bind, ret, gets, modify;
  cbn [fst snd dragActive uploadedImage log].

Lemma uploads_app (l1 l2 : list Effect) :
  uploads (l1 ++ l2) = uploads l1 ++ uploads l2.
Proof.
  induction l1 as [|e l1 IH]; cbn; [reflexivity|].
  destruct e; cbn; now rewrite IH.
Qed.

(** An image file starts a reader and nothing else; the preview and the
    callback follow when the reader is done. *)
Example image_file_is_read :
  exec (handleFile Samples.model_png) initial
  = mkComponent false None [ReadAsDataURL Samples.model_png]
  /\ exec (onloadend Samples.model_png (Some "data:image/png;base64,AAAA"))
          (exec (handleFile Samples.model_png) initial)
     = mkComponent false (Some "data:image/png;base64,AAAA")
                   [ReadAsDataURL Samples.model_png; OnImageUpload Samples.model_png].
Proof. split; reflexivity. Qed.

(** C8: for a file whose type does not start with [image/], [handleFile]
    changes nothing: no reader is created, the preview is kept and the
    parent's callback is not called.  The same holds when the file comes in
    through the file input; through a drop, only the drag flag and the two
    event calls are added. *)
Theorem handleFile_ignores_other_types (file : File) (c : Component) :
  String.prefix "image/" (type file) = false ->
  exec (handleFile file) c = c
  /\ (forall others, exec (handleFileInput (file :: others)) c = c)
  /\ (forall others e,
         files e = file :: others ->
         let c' := exec (handleDrop e) c in
         uploadedImage c' = uploadedImage c
         /\ uploads (log c') = uploads (log c)
         /\ log c' = log c ++ [PreventDefault; StopPropagation]).
Proof.
  intros Htype. destruct c as [da up lg].
  split; [|split].
  - component_unfold. now rewrite Htype.
  - intros others. component_unfold. now rewrite Htype.
  - intros others e He. component_unfold. rewrite He. component_unfold.
    rewrite Htype. cbn. rewrite <- app_assoc. cbn.
    repeat split; try reflexivity.
    rewrite uploads_app. cbn. now rewrite app_nil_r.
Qed.

Lemma handleFile_ignores_other_types_witness :
  String.prefix "image/" (type Samples.notes_txt) = false
  /\ exec (handleFile Samples.notes_txt) initial = initial.
Proof.
  split; [reflexivity|].
  apply (handleFile_ignores_other_types Samples.notes_txt initial).
  reflexivity.
Defined.

End ImageUploadFacts.

(** ** Facts about the [useImageUpload] hook *)

Module UseImageUploadFacts.

Import UseImageUpload.

Ltac upload_unfold :=
  unfold exec, uploadImage, uploadImage_begin, uploadImage_resume, upload_catch,
    clearImage, setImage, setPreview, setIsUploading, setError,
    bind, ret, gets, modify;
  cbn [fst snd image preview isUploading error].

(** A valid file whose preview can be made is stored with its preview. *)
Example upload_of_image :
  exec (uploadImage Samples.validate_by_type Samples.model_png
                    (Fulfilled "data:image/png;base64,AAAA")) initial
  = mkHook (Some Samples.model_png) (Some "data:image/png;base64,AAAA") false None.
Proof. reflexivity. Qed.

(** C9: however an invocation of [uploadImage] goes (the validation
    rejects the file, or throws, or the preview is made, or making it
    fails), [isUploading] is false when it is over; this also holds when
    the continuation runs in a state other handlers have changed.  When
    the validation rejects the file, [error] is set to the validation's
    message, or to ["Invalid file"] when it gives none, and [image] and
    [preview] keep the values they had. *)
Theorem uploadImage_settles
        (validateImageFile : File -> Completion Validation)
        (file : File) (outcome : Settled string) (h : Hook) :
  let h' := exec (uploadImage validateImageFile file outcome) h in
  isUploading h' = false
  /\ isUploading (exec (uploadImage_resume file outcome) h) = false
  /\ (forall validation,
         validateImageFile file = Returned validation ->
         isValid validation = false ->
         error h' = Some (or_default (validation_error validation) "Invalid file")
         /\ image h' = image h
         /\ preview h' = preview h).
Proof.
  destruct h as [im pv up er].
  split; [|split].
  - upload_unfold.
    destruct (validateImageFile file) as [validation|err]; upload_unfold;
      [destruct (isValid validation); cbn|]; upload_unfold;
      try reflexivity.
    destruct outcome; reflexivity.
  - destruct outcome; reflexivity.
  - intros validation Hv Hinvalid. upload_unfold.
    rewrite Hv, Hinvalid. cbn. repeat split; reflexivity.
Qed.

Lemma uploadImage_settles_witness :
  Samples.validate_by_type Samples.notes_txt
  = Returned (mkValidation false (Some "Unsupported file type"))
  /\ error (exec (uploadImage Samples.validate_by_type Samples.notes_txt
                              (Fulfilled "unused")) initial)
     = Some "Unsupported file type".
Proof.
  split; [reflexivity|].
  apply (proj2 (proj2 (uploadImage_settles Samples.validate_by_type Samples.notes_txt
                                           (Fulfilled "unused") initial))
               (mkValidation false (Some "Unsupported file type")));
    reflexivity.
Defined.

End UseImageUploadFacts.

(** ** Facts about [simulateProgress] *)

Module PageFacts.

Import Page.
Local Open Scope Q_scope.

(** Three firings with draws 0.5, 0.9 and 0.2: progress 15, 42 and 48. *)
Example three_ticks :
  map (fun st => Qred (progress st))
      (published (ticks [1#2; 9#10; 1#5] simulateProgress))
  = [15; 42; 48].
Proof. reflexivity. Qed.

Example three_ticks_messages :
  map message (published (ticks [1#2; 9#10; 1#5] simulateProgress))
  = [Some "Analyzing image..."%string; Some "Detecting pose..."%string;
     Some "Detecting pose..."%string].
Proof. reflexivity. Qed.

(** Once 90 is reached the interval is cleared and later draws are lost. *)
Example capped_run :
  let s := ticks [1; 1; 1; 1; 1#2] simulateProgress in
  interval s = false
  /\ map (fun st => Qred (progress st)) (published s) = [30; 60; 90]
  /\ message (processingStatus s) = Some "Generating result..."%string.
Proof. repeat split; reflexivity. Qed.

Lemma advance_range (p r : Q) :
  0 <= p -> p <= 90 -> 0 <= r ->
  p <= advance p r /\ advance p r <= 90.
Proof.
  intros Hp0 Hp90 Hr. unfold advance.
  destruct (Qle_bool (p + r * 30) 90) eqn:E.
  - apply Qle_bool_iff in E. split; lra.
  - split; lra.
Qed.

Lemma messageIndex_range (p : Q) :
  0 <= p -> p <= 90 -> (0 <= messageIndex p <= 3)%Z.
Proof.
  intros Hp0 Hp90. unfold messageIndex. split.
  - change (Qfloor 0 <= Qfloor (p / 25))%Z. apply Qfloor_resp_le.
    apply Qle_shift_div_l; [reflexivity | lra].
  - change (Qfloor (p / 25) <= Qfloor (18 # 5))%Z. apply Qfloor_resp_le.
    apply Qle_shift_div_r; [reflexivity | lra].
Qed.

Lemma clampedIndex_range (p : Q) :
  0 <= p -> p <= 90 ->
  (0 <= clampedIndex p < Z.of_nat (length messages))%Z.
Proof.
  intros Hp0 Hp90. unfold clampedIndex.
  pose proof (messageIndex_range p Hp0 Hp90).
  change (Z.of_nat (length messages)) with 4%Z. lia.
Qed.

Lemma array_get_messages (i : Z) :
  (0 <= i < Z.of_nat (length messages))%Z ->
  exists m, array_get messages i = Some m /\ In m messages.
Proof.
  cbn. intros Hi.
  assert (Hcases : i = 0%Z \/ i = 1%Z \/ i = 2%Z \/ i = 3%Z) by lia.
  destruct Hcases as [-> | [-> | [-> | ->]]]; cbn; eexists; split;
    try reflexivity; cbn; tauto.
Qed.

Lemma publish_well (prev : Status) (p : Q) :
  0 <= p -> p <= 90 ->
  well_published (publish prev p) /\ progress (publish prev p) == p.
Proof.
  intros Hp0 Hp90.
  assert (Hmin : Qmin p 100 == p) by (apply Q.min_l; lra).
  unfold well_published, publish; cbn [progress message].
  repeat split; try (rewrite Hmin; lra); auto.
  apply array_get_messages, clampedIndex_range; assumption.
Qed.

Lemma non_decreasing_snoc (l : list Q) (y : Q) :
  non_decreasing l -> Forall (fun x => x <= y) l -> non_decreasing (l ++ [y]).
Proof.
  induction l as [|x l IH]; intros Hnd Hall; [exact I|].
  inversion Hall as [|? ? Hx Hl]; subst.
  destruct l as [|x' l]; cbn in *.
  - auto.
  - destruct Hnd as [Hxx' Hnd]. split; [exact Hxx'|]. apply IH; assumption.
Qed.

Lemma simulateProgress_invariant : invariant simulateProgress.
Proof.
  unfold invariant; cbn. repeat split; try lra; constructor.
Qed.

Lemma tick_invariant (r : Q) (s : Sim) :
  0 <= r -> invariant s -> invariant (tick r s).
Proof.
  intros Hr (Hp0 & Hp90 & Hpub & Hnd). unfold tick.
  destruct (interval s); [|repeat split; assumption].
  destruct (advance_range _ r Hp0 Hp90 Hr) as (Hup & Hcap).
  assert (Hq0 : 0 <= advance (local_progress s) r) by lra.
  destruct (publish_well (processingStatus s) _ Hq0 Hcap) as (Hwell & Heq).
  unfold invariant; cbn [local_progress published].
  repeat split; try assumption.
  - apply Forall_app. split.
    + eapply Forall_impl; [|exact Hpub]. cbn. intros st (Hw & Hle). split; [exact Hw|lra].
    + constructor; [|constructor]. split; [exact Hwell|]. rewrite Heq. lra.
  - rewrite map_app. cbn [map]. apply non_decreasing_snoc; [exact Hnd|].
    apply Forall_map. eapply Forall_impl; [|exact Hpub]. cbn.
    intros st (_ & Hle). rewrite Heq. lra.
Qed.

Lemma ticks_invariant (rs : list Q) :
  Forall random_value rs -> forall s, invariant s -> invariant (ticks rs s).
Proof.
  induction 1 as [|r rs (Hr & _) _ IH]; intros s Hs; cbn [ticks]; [exact Hs|].
  apply IH, tick_invariant; assumption.
Qed.

(** C10: at every firing of the interval callback of [simulateProgress],
    after any number of earlier firings and for any value of
    [Math.random()], the accumulated progress is at most 90, the index
    [Math.min(Math.floor(progress / 25), messages.length - 1)] lies within
    the four messages, the message published is one of them (so it is not
    [undefined]) and the progress published is at most 90; and this holds
    of every status published so far. *)
Theorem tick_is_capped_and_indexed (rs : list Q) (r : Q) :
  Forall random_value rs ->
  random_value r ->
  let s := ticks rs simulateProgress in
  let p := advance (local_progress s) r in
  let st := publish (processingStatus s) p in
  p <= 90
  /\ (0 <= clampedIndex p < Z.of_nat (length messages))%Z
  /\ (exists m, message st = Some m /\ In m messages)
  /\ progress st <= 90
  /\ Forall (fun st' => progress st' <= 90 /\ message st' <> None)
            (published (tick r s)).
Proof.
  intros Hrs (Hr & _) s p st.
  assert (Hs : invariant s)
    by (apply ticks_invariant; [exact Hrs | exact simulateProgress_invariant]).
  destruct Hs as (Hp0 & Hp90 & Hpub & Hnd).
  destruct (advance_range _ r Hp0 Hp90 Hr) as (Hup & Hcap). fold p in Hup, Hcap.
  assert (Hq0 : 0 <= p) by lra.
  destruct (publish_well (processingStatus s) p Hq0 Hcap) as ((_ & Hst90 & Hm) & _).
  fold st in Hst90, Hm.
  split; [exact Hcap|]. split; [apply clampedIndex_range; assumption|].
  split; [exact Hm|]. split; [exact Hst90|].
  assert (Hs' : invariant (tick r s))
    by (apply tick_invariant; [exact Hr | repeat split; assumption]).
  destruct Hs' as (_ & _ & Hpub' & _).
  eapply Forall_impl; [|exact Hpub']. cbn.
  intros st' ((_ & H90 & m & Hmsg & _) & _). split; [exact H90|].
  rewrite Hmsg. discriminate.
Qed.

Lemma tick_is_capped_and_indexed_witness :
  Forall random_value [1#2; 9#10]
  /\ random_value (1#5)
  /\ advance (local_progress (ticks [1#2; 9#10] simulateProgress)) (1#5) <= 90.
Proof.
  assert (H1 : Forall random_value [1#2; 9#10])
    by (repeat constructor; cbv; discriminate).
  assert (H2 : random_value (1#5)) by (split; cbv; [discriminate | reflexivity]).
  split; [exact H1|]. split; [exact H2|].
  apply (tick_is_capped_and_indexed [1#2; 9#10] (1#5) H1 H2).
Defined.

End PageFacts.

(** ** Progress over time, in the hook and in the simulation *)

Module ProgressFacts.

Local Open Scope Q_scope.

(** C7, as the code has it: [updateJobStatus] copies the progress of each
    snapshot, without comparing it with the value shown before and without
    clamping it, so the values shown across a series of snapshots are
    exactly the snapshots' own.  In [simulateProgress] the progress
    published from one firing to the next never goes down and stays
    between 0 and 90. *)
Theorem progress_follows_its_source :
  (forall snapshots h,
      UseProcessing.progress_trace snapshots h = map Types.progress snapshots)
  /\ (forall rs,
         Forall Page.random_value rs ->
         let shown := map Page.progress
                          (Page.published (Page.ticks rs Page.simulateProgress)) in
         Page.non_decreasing shown
         /\ Forall (fun p => 0 <= p /\ p <= 90) shown).
Proof.
  split.
  - induction snapshots as [|jobStatus rest IH]; intros h; cbn; [reflexivity|].
    rewrite IH. f_equal.
    apply (UseProcessingFacts.updateJobStatus_spec jobStatus h).
  - intros rs Hrs shown.
    destruct (PageFacts.ticks_invariant rs Hrs _ PageFacts.simulateProgress_invariant)
      as (_ & _ & Hpub & Hnd).
    split; [exact Hnd|].
    apply Forall_map. eapply Forall_impl; [|exact Hpub]. cbn.
    intros st ((H0 & H90 & _) & _). split; assumption.
Qed.

Lemma progress_follows_its_source_witness :
  Forall Page.random_value [1#2; 9#10; 1#5]
  /\ Page.non_decreasing
       (map Page.progress
            (Page.published (Page.ticks [1#2; 9#10; 1#5] Page.simulateProgress))).
Proof.
  assert (H : Forall Page.random_value [1#2; 9#10; 1#5])
    by (repeat constructor; cbv; discriminate).
  split; [exact H|].
  apply (proj2 progress_follows_its_source [1#2; 9#10; 1#5] H).
Defined.

(** C7 fails as stated: three snapshots of a job that is still processing,
    reporting 40, then 20, then 150, are shown as 40, 20 and 150: the
    progress goes down, and then leaves the range 0 to 100. *)
Lemma progress_can_go_down_and_out :
  UseProcessing.progress_trace
    [ Samples.snapshot "processing" 40 "Detecting pose...";
      Samples.snapshot "processing" 20 "Detecting pose...";
      Samples.snapshot "processing" 150 "Detecting pose..." ]
    Samples.submitting
  = [40; 20; 150]
  /\ ~ Page.non_decreasing [40; 20; 150]
  /\ ~ 150 <= 100.
Proof.
  split; [reflexivity|]. split.
  - cbn. intros (H & _). revert H. cbv. intros H. now apply H.
  - cbv. intros H. now apply H.
Qed.

End ProgressFacts.


(** ** More on the [useProcessing] hook: sequences of events *)

Module UseProcessingMore.

Import UseProcessing UseProcessingRuns.

Ltac hook_unfold := UseProcessingFacts.hook_unfold.

Lemma run_app (es1 es2 : list Event) (h : Hook) :
  run (es1 ++ es2) h = run es2 (run es1 h).
Proof.
  revert h. induction es1 as [|e es1 IH]; intros h; cbn; [reflexivity | apply IH].
Qed.

Lemma clears_app (l1 l2 : list Effect) :
  clears (l1 ++ l2) = clears l1 ++ clears l2.
Proof.
  induction l1 as [|e l1 IH]; cbn; [reflexivity|].
  destruct e; cbn; now rewrite IH.
Qed.

Lemma polled_app (l1 l2 : list Effect) :
  polled (l1 ++ l2) = polled l1 ++ polled l2.
Proof.
  induction l1 as [|e l1 IH]; cbn; [reflexivity|].
  destruct e; cbn; now rewrite IH.
Qed.

Lemma accepts_guard (response : Types.ApiResponse) (jobId : string) :
  accepts response jobId ->
  negb (Types.success response) || negb (truthy_opt (response_jobId response)) = false
  /\ or_default (response_jobId response) "" = jobId.
Proof.
  intros (Hs & Hj & Hne). rewrite Hs, Hj. cbn.
  apply UseProcessingFacts.truthy_true in Hne. now rewrite Hne.
Qed.

(** Snapshots leave [error] alone and can only turn [isProcessing] off. *)
Lemma snapshots_error_processing (snapshots : list Types.ProcessingJob) :
  forall h,
    let h' := run (map Snapshot snapshots) h in
    error h' = error h
    /\ isProcessing h' = isProcessing h && negb (existsb settles snapshots).
Proof.
  induction snapshots as [|js rest IH]; intros h; cbn [map run existsb handle].
  - cbn. now rewrite andb_true_r.
  - destruct (IH (exec (updateJobStatus js) h)) as (He & Hi).
    destruct (UseProcessingFacts.updateJobStatus_spec js h)
      as (_ & _ & _ & He' & Hi' & _).
    cbn zeta in *. rewrite He, Hi, He', Hi'.
    split; [reflexivity|].
    destruct (settles js); cbn; rewrite ?andb_false_r; reflexivity.
Qed.

(** X1: after any series of snapshots the hook shows the job, progress and
    message of the last one, whatever came before; [error] is what it was;
    [isProcessing] is what it was unless one of the snapshots was completed
    or failed, in which case it is false: no snapshot turns it on again. *)
Theorem snapshots_last_one_wins
        (snapshots : list Types.ProcessingJob) (last : Types.ProcessingJob) (h : Hook) :
  let h' := run (map Snapshot (snapshots ++ [last])) h in
  job h' = Some last
  /\ progress h' = Types.progress last
  /\ message h' = Types.message last
  /\ error h' = error h
  /\ isProcessing h' = isProcessing h && negb (existsb settles (snapshots ++ [last])).
Proof.
  intros h'.
  destruct (snapshots_error_processing (snapshots ++ [last]) h) as (He & Hi).
  fold h' in He, Hi.
  assert (Hlast : h' = exec (updateJobStatus last) (run (map Snapshot snapshots) h)).
  { subst h'. rewrite map_app, run_app. reflexivity. }
  destruct (UseProcessingFacts.updateJobStatus_spec
              last (run (map Snapshot snapshots) h)) as (Hj & Hp & Hm & _).
  rewrite <- Hlast in Hj, Hp, Hm.
  repeat split; assumption.
Qed.

(** One event either leaves the timer handle and the calls of
    [clearInterval] as they are, or clears the handle that was held. *)
Lemma handle_timer (e : Event) (h : Hook) :
  let h' := exec (handle e) h in
  (pollingRef h' = pollingRef h /\ clears (log h') = clears (log h))
  \/ (exists t, pollingRef h = Some t
                /\ pollingRef h' = None
                /\ clears (log h') = clears (log h) ++ [t]).
Proof.
  destruct h as [ip pr ms jb er pl lg].
  assert (Hclear : forall ip' pr' ms' jb' er' lg',
             clears lg' = clears lg ->
             let h' := exec clearPolling (mkHook ip' pr' ms' jb' er' pl lg') in
             (pollingRef h' = pl /\ clears (log h') = clears lg)
             \/ (exists t, pl = Some t /\ pollingRef h' = None
                           /\ clears (log h') = clears lg ++ [t])).
  { intros ip' pr' ms' jb' er' lg' Hlg. destruct pl as [t|]; hook_unfold.
    - right. exists t. rewrite clears_app, Hlg. auto.
    - left. auto. }
  destruct e as [r|[resp|err]|r|[resp|err]|js|l|err| |[u|err]| ];
    unfold handle; cbn [pollingRef log].
  - left. hook_unfold. rewrite clears_app. cbn. now rewrite app_nil_r.
  - left. hook_unfold.
    destruct (negb (Types.success resp) || negb (truthy_opt (response_jobId resp)));
      hook_unfold; [|rewrite clears_app; cbn; rewrite app_nil_r]; auto.
  - left. hook_unfold. auto.
  - left. hook_unfold. rewrite clears_app. cbn. now rewrite app_nil_r.
  - left. hook_unfold.
    destruct (negb (Types.success resp) || negb (truthy_opt (response_jobId resp)));
      hook_unfold; [|rewrite clears_app; cbn; rewrite app_nil_r]; auto.
  - left. hook_unfold. auto.
  - unfold updateJobStatus, when.
    destruct ((Types.status js =? "completed") || (Types.status js =? "failed")).
    + apply (Hclear false (Types.progress js) (Types.message js) (Some js) er lg eq_refl).
    + left. hook_unfold. auto.
  - left. hook_unfold. rewrite clears_app. cbn. now rewrite app_nil_r.
  - left. destruct err; hook_unfold; auto.
  - left. hook_unfold. destruct jb as [j|]; [destruct (truthy (Types.id j))|];
      hook_unfold; [rewrite clears_app; cbn; rewrite app_nil_r| |]; auto.
  - apply (Hclear false 0%Q "" None er lg eq_refl).
  - left. hook_unfold. auto.
  - apply (Hclear false 0%Q "" None None lg eq_refl).
Qed.

(** X2: the hook never stores a timer handle and clears a handle at most
    once.  Over any sequence of events, from any state, either the handle and
    the calls of [clearInterval] are what they were, or the handle that was
    held has been cleared, once, and the ref is null.  From the initial state
    the ref stays null and [clearInterval] is never called. *)
Theorem timer_handle_cleared_at_most_once (es : list Event) :
  (forall h,
      let h' := run es h in
      (pollingRef h' = pollingRef h /\ clears (log h') = clears (log h))
      \/ (exists t, pollingRef h = Some t
                    /\ pollingRef h' = None
                    /\ clears (log h') = clears (log h) ++ [t]))
  /\ pollingRef (run es initial) = None
  /\ clears (log (run es initial)) = [].
Proof.
  assert (Hgen : forall h,
             (pollingRef (run es h) = pollingRef h
              /\ clears (log (run es h)) = clears (log h))
             \/ (exists t, pollingRef h = Some t
                           /\ pollingRef (run es h) = None
                           /\ clears (log (run es h)) = clears (log h) ++ [t])).
  { induction es as [|e es IH]; intros h; cbn [run]; [left; auto|].
    destruct (handle_timer e h) as [(Hp & Hc) | (t & Ht & Hp & Hc)];
      destruct (IH (exec (handle e) h)) as [(Hp' & Hc') | (t' & Ht' & Hp' & Hc')].
    - left. split; congruence.
    - right. exists t'. repeat split; congruence.
    - right. exists t. repeat split; congruence.
    - congruence. }
  split; [exact Hgen|].
  destruct (Hgen initial) as [(Hp & Hc) | (t & Ht & _)]; [|discriminate].
  split; assumption.
Qed.

(** X3: when the submit response is successful and carries a job id that is
    not empty, [startTryOn] and [startTryOff] start polling for exactly that
    id, once; the hook is left processing at progress 0 with the initialising
    message and no error, and [job] is what it was. *)
Theorem accepted_submit_starts_polling
        (response : Types.ApiResponse) (jobId : string) (h : Hook) :
  accepts response jobId ->
  (forall request,
      let h' := exec (startTryOn request (Fulfilled response)) h in
      isProcessing h' = true
      /\ progress h' = 0%Q
      /\ message h' = "Initializing try-on process..."
      /\ error h' = None
      /\ job h' = job h
      /\ log h' = log h ++ [SubmitTryOn request; PollJobStatus jobId])
  /\ (forall request,
         let h' := exec (startTryOff request (Fulfilled response)) h in
         isProcessing h' = true
         /\ progress h' = 0%Q
         /\ message h' = "Initializing garment extraction..."
         /\ error h' = None
         /\ job h' = job h
         /\ log h' = log h ++ [SubmitTryOff request; PollJobStatus jobId]).
Proof.
  intros Hacc. destruct (accepts_guard response jobId Hacc) as (Hguard & Hid).
  destruct h as [ip pr ms jb er pl lg].
  split; intros request; hook_unfold; rewrite Hguard, Hid; hook_unfold;
    rewrite <- app_assoc; repeat split; reflexivity.
Qed.

Lemma accepted_submit_starts_polling_witness :
  accepts Samples.accepted "J1"
  /\ log (exec (startTryOn Samples.request (Fulfilled Samples.accepted)) initial)
     = [SubmitTryOn Samples.request; PollJobStatus "J1"].
Proof.
  assert (H : accepts Samples.accepted "J1")
    by (split; [reflexivity | split; [reflexivity | discriminate]]).
  split; [exact H|].
  apply (proj1 (accepted_submit_starts_polling Samples.accepted "J1" initial H)
               Samples.request).
Defined.

(** The synchronous part of [startTryOn] as one record. *)
Lemma begin_state (request : Types.TryOnRequest) (h : Hook) :
  exec (startTryOn_begin request) h
  = mkHook true 0%Q "Initializing try-on process..." (job h) None (pollingRef h)
           (log h ++ [SubmitTryOn request]).
Proof.
  destruct h as [ip pr ms jb er pl lg]. reflexivity.
Qed.

(** [reset] as one record. *)
Lemma reset_state (h : Hook) :
  exec reset h = mkHook false 0%Q "" None None None (log h ++ cleared (pollingRef h)).
Proof.
  destruct h as [ip pr ms jb er [t|] lg]; hook_unfold; cbn [cleared];
    [reflexivity | now rewrite app_nil_r].
Qed.

(** The continuation of [startTryOn] on an accepting response only starts
    polling. *)
Lemma resume_accepted (response : Types.ApiResponse) (jobId : string) (h : Hook) :
  accepts response jobId ->
  exec (startTryOn_resume (Fulfilled response)) h
  = mkHook (isProcessing h) (progress h) (message h) (job h) (error h) (pollingRef h)
           (log h ++ [PollJobStatus jobId]).
Proof.
  intros Hacc. destruct (accepts_guard response jobId Hacc) as (Hguard & Hid).
  unfold startTryOn_resume. rewrite Hguard, Hid. reflexivity.
Qed.

Lemma polled_cleared (current : option Timer) : polled (cleared current) = [].
Proof. destruct current; reflexivity. Qed.

(** From the initial state [reset] finds no handle to clear, so it makes no
    call at all: whatever polling was started is not stopped by it. *)
Lemma reset_stops_nothing (es : list Event) :
  log (exec reset (run es initial)) = log (run es initial)
  /\ clears (log (exec reset (run es initial))) = clears (log (run es initial)).
Proof.
  assert (Hlog : log (exec reset (run es initial)) = log (run es initial)).
  { rewrite reset_state. cbn [log].
    rewrite (UseProcessingFacts.run_keeps_pollingRef_null es initial eq_refl).
    cbn [cleared]. apply app_nil_r. }
  split; [exact Hlog | now rewrite Hlog].
Qed.

(** C5 on the hook with a job in flight: polling for J1 was started and the
    handle of its timer was never stored in [pollingRef].  [reset] puts the
    cells into the idle shape, but it finds the ref null, calls nothing and
    stops nothing: the log is unchanged and holds no call of
    [clearInterval].  The polling it did not stop then delivers the next
    snapshot, and the hook shows job J1 at 60 percent again. *)
Theorem reset_leaves_polling_running :
  let next := Samples.snapshot "processing" 60 "Processing garments..." in
  let h' := exec reset Samples.active in
  polled (log Samples.active) = ["J1"]
  /\ pollingRef Samples.active = None
  /\ observable h' = (false, 0%Q, "", None)
  /\ error h' = None
  /\ pollingRef h' = None
  /\ log h' = log Samples.active
  /\ clears (log h') = []
  /\ observable (exec (updateJobStatus next) h')
     = (false, 60%Q, "Processing garments...", Some next).
Proof.
  repeat split; reflexivity.
Qed.

(** X4: [reset] does not abort a submit that is pending.  If [reset] is
    called between the call of [startTryOn] and an accepting response, the
    continuation still starts polling for the new job while the hook shows
    the idle state; a snapshot that then arrives puts its job, progress and
    message into the hook, with [isProcessing] still false. *)
Theorem reset_does_not_abort_submit
        (response : Types.ApiResponse) (jobId : string)
        (request : Types.TryOnRequest) (h : Hook) :
  accepts response jobId ->
  let h' := run [CallStartTryOn request; CallReset; TryOnSettled (Fulfilled response)] h in
  isProcessing h' = false
  /\ progress h' = 0%Q
  /\ message h' = ""
  /\ job h' = None
  /\ error h' = None
  /\ polled (log h') = polled (log h) ++ [jobId]
  /\ (forall jobStatus,
         let h'' := run [Snapshot jobStatus] h' in
         job h'' = Some jobStatus
         /\ progress h'' = Types.progress jobStatus
         /\ isProcessing h'' = false).
Proof.
  intros Hacc h'.
  assert (Hh' : h' = exec (startTryOn_resume (Fulfilled response))
                          (exec reset (exec (startTryOn_begin request) h)))
    by reflexivity.
  rewrite begin_state, reset_state, (resume_accepted response jobId _ Hacc) in Hh'.
  cbn [isProcessing progress message job error pollingRef log] in Hh'.
  rewrite Hh'. cbn [isProcessing progress message job error log].
  do 5 (split; [reflexivity|]). split.
  - rewrite !polled_app, polled_cleared. cbn. now rewrite !app_nil_r.
  - intros jobStatus. cbn [run handle].
    destruct (UseProcessingFacts.updateJobStatus_spec
                jobStatus
                (mkHook false 0%Q "" None None None
                        (((log h ++ [SubmitTryOn request]) ++ cleared (pollingRef h))
                         ++ [PollJobStatus jobId])))
      as (Hj & Hp & _ & _ & Hi & _).
    cbn [isProcessing] in Hi.
    split; [exact Hj|]. split; [exact Hp|].
    rewrite Hi. now destruct (settles jobStatus).
Qed.

Lemma reset_does_not_abort_submit_witness :
  accepts Samples.accepted "J1"
  /\ isProcessing
       (run [CallStartTryOn Samples.request; CallReset;
             TryOnSettled (Fulfilled Samples.accepted)] initial) = false.
Proof.
  assert (H : accepts Samples.accepted "J1")
    by (split; [reflexivity | split; [reflexivity | discriminate]]).
  split; [exact H|].
  destruct (reset_does_not_abort_submit Samples.accepted "J1" Samples.request initial H)
    as (Hidle & _).
  exact Hidle.
Defined.

(** [cancelProcessing] up to its [await], for a job with an id. *)
Lemma cancel_begin_state (j : Types.ProcessingJob) (h : Hook) :
  job h = Some j ->
  Types.id j <> "" ->
  exec cancelProcessing_begin h
  = mkHook (isProcessing h) (progress h) (message h) (job h) (error h) (pollingRef h)
           (log h ++ [CancelJob (Types.id j)]).
Proof.
  intros Hjob Hid. apply UseProcessingFacts.truthy_true in Hid.
  destruct h as [ip pr ms jb er pl lg]. cbn [job] in Hjob. subst jb.
  unfold exec, cancelProcessing_begin, bind, gets. cbn [job fst snd].
  rewrite Hid. reflexivity.
Qed.

(** [cancelProcessing] after a cancel call that succeeded. *)
Lemma cancel_success_state (h : Hook) :
  exec (cancelProcessing_resume (Fulfilled tt)) h
  = mkHook false 0%Q "" None (error h) None (log h ++ cleared (pollingRef h)).
Proof.
  destruct h as [ip pr ms jb er [t|] lg]; hook_unfold; cbn [cleared];
    [reflexivity | now rewrite app_nil_r].
Qed.

(** X5: [startTryOn] does not clear [job], so while a new submit is pending
    the hook still holds the previous job, and [cancelProcessing] sends the
    cancel request for that previous job's id; when that request succeeds
    the hook goes idle although the new submit is still pending. *)
Theorem cancel_while_resubmitting_targets_previous_job
        (previous : Types.ProcessingJob) (request : Types.TryOnRequest) (h : Hook) :
  job h = Some previous ->
  Types.id previous <> "" ->
  let h' := run [CallStartTryOn request; CallCancel] h in
  log h' = log h ++ [SubmitTryOn request; CancelJob (Types.id previous)]
  /\ job h' = Some previous
  /\ isProcessing h' = true
  /\ isProcessing (run [CancelSettled (Fulfilled tt)] h') = false
  /\ job (run [CancelSettled (Fulfilled tt)] h') = None.
Proof.
  intros Hjob Hid h'.
  assert (Hh' : h' = exec cancelProcessing_begin (exec (startTryOn_begin request) h)).
  { subst h'. cbn [run handle]. unfold exec at 1. unfold bind, ret.
    unfold exec at 2. now destruct (cancelProcessing_begin _). }
  rewrite begin_state in Hh'.
  rewrite (cancel_begin_state previous) in Hh' by assumption.
  cbn [isProcessing progress message job error pollingRef log] in Hh'.
  rewrite Hh'. cbn [run handle]. rewrite cancel_success_state.
  cbn [isProcessing job log]. rewrite <- app_assoc, Hjob.
  repeat split; reflexivity.
Qed.

Lemma cancel_while_resubmitting_targets_previous_job_witness :
  job Samples.completed = Some (Samples.snapshot "completed" 100 "Done")
  /\ log (run [CallStartTryOn Samples.request; CallCancel] Samples.completed)
     = log Samples.completed ++ [SubmitTryOn Samples.request; CancelJob "J1"].
Proof.
  split; [reflexivity|].
  apply (cancel_while_resubmitting_targets_previous_job
           (Samples.snapshot "completed" 100 "Done") Samples.request Samples.completed);
    [reflexivity | discriminate].
Defined.

Lemma handle_keeps_idle (e : Event) (h : Hook) :
  is_start e = false ->
  isProcessing h = false ->
  isProcessing (exec (handle e) h) = false.
Proof.
  destruct h as [ip pr ms jb er pl lg]; cbn [isProcessing]; intros He ->.
  destruct e as [r|[resp|err]|r|[resp|err]|js|l|err| |[u|err]| ];
    try discriminate He; unfold handle; hook_unfold; try reflexivity.
  - destruct (negb (Types.success resp) || negb (truthy_opt (response_jobId resp)));
      reflexivity.
  - destruct (negb (Types.success resp) || negb (truthy_opt (response_jobId resp)));
      reflexivity.
  - destruct ((Types.status js =? "completed") || (Types.status js =? "failed"));
      [destruct pl|]; reflexivity.
  - destruct err; reflexivity.
  - destruct jb as [j|]; [destruct (truthy (Types.id j))|]; reflexivity.
  - destruct pl; reflexivity.
  - destruct pl; reflexivity.
Qed.

(** X6: only a call of [startTryOn] or [startTryOff] turns processing on.
    Over any sequence of events without such a call (responses, snapshots,
    poll results, cancels, resets), a hook that is not processing stays so. *)
Theorem processing_starts_only_with_a_start (es : list Event) (h : Hook) :
  forallb (fun e => negb (is_start e)) es = true ->
  isProcessing h = false ->
  isProcessing (run es h) = false.
Proof.
  revert h. induction es as [|e es IH]; intros h Hes Hh; cbn [run]; [exact Hh|].
  cbn in Hes. apply andb_true_iff in Hes. destruct Hes as (He & Hes).
  apply negb_true_iff in He.
  apply IH; [exact Hes|]. now apply handle_keeps_idle.
Qed.

Lemma processing_starts_only_with_a_start_witness :
  isProcessing
    (run [Snapshot (Samples.snapshot "processing" 60 "Processing garments...");
          TryOnSettled (Fulfilled Samples.accepted); CallCancel]
         Samples.completed) = false.
Proof.
  apply (processing_starts_only_with_a_start
           [Snapshot (Samples.snapshot "processing" 60 "Processing garments...");
            TryOnSettled (Fulfilled Samples.accepted); CallCancel]
           Samples.completed); reflexivity.
Defined.

Lemma or_default_not_empty (o : option string) (d : string) :
  d <> "" -> or_default o d <> "".
Proof.
  intros Hd. destruct o as [s|]; cbn; [|exact Hd].
  destruct (truthy s) eqn:Hs; [|exact Hd].
  now apply UseProcessingFacts.truthy_true.
Qed.

(** X7: when the promise of [pollJobStatus] is rejected with a value whose
    [message] can be read (an [Error], or any value other than [undefined]
    and [null]), [error] is set to a message that is never empty (that
    [message], or ["Processing failed"] when it is missing or empty) and
    [isProcessing] becomes false; the job, its progress and message, the
    timer handle and the log are left as they were.  When it is rejected
    with [undefined] or [null], reading [err.message] throws inside the
    handler before any setter runs: the hook is left exactly as it was,
    still processing and without error. *)
Theorem poll_rejection_ends_processing (err : Thrown) (h : Hook) :
  let h' := exec (poll_catch err) h in
  (forall m,
      message_prop err = Some m ->
      error h' = Some (or_default m "Processing failed")
      /\ or_default m "Processing failed" <> ""
      /\ isProcessing h' = false
      /\ job h' = job h
      /\ progress h' = progress h
      /\ message h' = message h
      /\ pollingRef h' = pollingRef h
      /\ log h' = log h)
  /\ (err = ThrownNullish -> h' = h).
Proof.
  destruct h as [ip pr ms jb er pl lg]. split.
  - intros m Hm. hook_unfold. rewrite Hm. hook_unfold.
    repeat split; try reflexivity.
    apply or_default_not_empty. discriminate.
  - intros ->. reflexivity.
Qed.

Lemma poll_rejection_ends_processing_witness :
  error (exec (poll_catch (ThrownValue None)) Samples.active) = Some "Processing failed"
  /\ exec (poll_catch ThrownNullish) Samples.active = Samples.active.
Proof.
  split.
  - destruct (proj1 (poll_rejection_ends_processing (ThrownValue None) Samples.active)
                    None eq_refl) as (Herr & _).
    exact Herr.
  - exact (proj2 (poll_rejection_ends_processing ThrownNullish Samples.active) eq_refl).
Defined.

(** X8: when the submit response arrives but is refused (unsuccessful, or
    without a job id), the error shown is the response's own [error] text if
    it has one that is not empty, and otherwise the fixed text of the
    function that was called; it is never empty. *)
Theorem refused_submit_message (response : Types.ApiResponse) (h : Hook) :
  Types.success response = false \/ truthy_opt (response_jobId response) = false ->
  error (exec (startTryOn_resume (Fulfilled response)) h)
  = Some (or_default (Types.error response) "Failed to submit try-on request")
  /\ error (exec (startTryOff_resume (Fulfilled response)) h)
     = Some (or_default (Types.error response) "Failed to submit try-off request")
  /\ or_default (Types.error response) "Failed to submit try-on request" <> ""
  /\ or_default (Types.error response) "Failed to submit try-off request" <> ""
  /\ (forall text, Types.error response = Some text -> text <> "" ->
                   error (exec (startTryOn_resume (Fulfilled response)) h) = Some text
                   /\ error (exec (startTryOff_resume (Fulfilled response)) h) = Some text).
Proof.
  intros Hfail. pose proof (UseProcessingFacts.failed_guard response Hfail) as Hguard.
  destruct h as [ip pr ms jb er pl lg].
  unfold startTryOn_resume, startTryOff_resume. rewrite Hguard. hook_unfold.
  split; [reflexivity|]. split; [reflexivity|].
  split; [apply or_default_not_empty; discriminate|].
  split; [apply or_default_not_empty; discriminate|].
  intros text Htext Hne. apply UseProcessingFacts.truthy_true in Hne.
  rewrite Htext. cbn [or_default]. rewrite Hne. split; reflexivity.
Qed.

Lemma refused_submit_message_witness :
  error (exec (startTryOn_resume (Fulfilled Samples.refused)) Samples.submitting)
  = Some "Unsupported image".
Proof.
  apply (proj2 (proj2 (proj2 (proj2
           (refused_submit_message Samples.refused Samples.submitting
                                   (or_introl eq_refl)))))
           "Unsupported image" eq_refl).
  discriminate.
Defined.

End UseProcessingMore.


(** ** More on the [ImageUpload] component: what reaches the parent *)

Module ImageUploadMore.

Import ImageUpload ImageUploadRuns.

Ltac component_unfold := ImageUploadFacts.component_unfold.

Lemma reads_app (l1 l2 : list Effect) :
  reads (l1 ++ l2) = reads l1 ++ reads l2.
Proof.
  induction l1 as [|e l1 IH]; cbn; [reflexivity|].
  destruct e; cbn; now rewrite IH.
Qed.

Lemma same_file_eq (f g : File) : same_file f g = true -> f = g.
Proof.
  destruct f as [n1 t1 s1], g as [n2 t2 s2]. unfold same_file; cbn.
  rewrite !andb_true_iff, !String.eqb_eq, Z.eqb_eq.
  intros ((-> & ->) & ->). reflexivity.
Qed.

Lemma times_snoc (f g : File) (l : list File) :
  times f (l ++ [g]) = (times f l + if same_file f g then 1 else 0)%nat.
Proof.
  unfold times. rewrite filter_app, length_app. cbn.
  now destruct (same_file f g).
Qed.

Lemma times_positive_in (f : File) (l : list File) :
  (0 < times f l)%nat -> In f l.
Proof.
  unfold times. intros Hpos.
  destruct (filter (same_file f) l) as [|g rest] eqn:Hf; [cbn in Hpos; lia|].
  assert (Hin : In g (filter (same_file f) l)) by (rewrite Hf; now left).
  apply filter_In in Hin. destruct Hin as (Hin & Hsame).
  apply same_file_eq in Hsame. now subst g.
Qed.

(** What one handler does to the two lists read off the log. *)
Lemma handleFile_log (file : File) (c : Component) :
  let c' := exec (handleFile file) c in
  uploads (log c') = uploads (log c)
  /\ reads (log c') = reads (log c) ++ (if is_image file then [file] else []).
Proof.
  destruct c as [da up lg]. unfold is_image. component_unfold.
  destruct (String.prefix "image/" (type file)); component_unfold.
  - rewrite ImageUploadFacts.uploads_app, reads_app. cbn. now rewrite app_nil_r.
  - now rewrite app_nil_r.
Qed.

Lemma consistent_read (c c' : Component) (file : File) :
  consistent c ->
  uploads (log c') = uploads (log c) ->
  reads (log c') = reads (log c) ++ (if is_image file then [file] else []) ->
  consistent c'.
Proof.
  intros (Hr & Hu & Hle) Hup Hrd. unfold consistent. rewrite Hup, Hrd.
  destruct (is_image file) eqn:Himg.
  - repeat split; auto.
    + apply Forall_app. split; [exact Hr|]. now constructor.
    + intros f. rewrite times_snoc. specialize (Hle f). lia.
  - rewrite app_nil_r. repeat split; auto.
Qed.

Lemma step_consistent (e : Event) (c c' : Component) :
  step e c = Some c' -> consistent c -> consistent c'.
Proof.
  destruct e as [d|d|fs|file result|]; cbn [step].
  - intros [= <-] Hc. destruct c as [da up lg]. destruct Hc as (Hr & Hu & Hle).
    unfold consistent in *. cbn [log] in *.
    assert (Hlog : exists da', exec (handleDrag d) (mkComponent da up lg)
                               = mkComponent da' up (lg ++ [PreventDefault; StopPropagation])).
    { component_unfold. rewrite <- app_assoc.
      destruct ((event_type d =? "dragenter") || (event_type d =? "dragover"));
        [|destruct (event_type d =? "dragleave")]; component_unfold; eauto. }
    destruct Hlog as (da' & ->). cbn [log].
    rewrite ImageUploadFacts.uploads_app, reads_app. cbn. rewrite !app_nil_r. auto.
  - intros [= <-] Hc.
    assert (Hmid : consistent
                     (mkComponent false (uploadedImage c)
                                  (log c ++ [PreventDefault; StopPropagation]))).
    { destruct Hc as (Hr & Hu & Hle). unfold consistent. cbn [log].
      rewrite ImageUploadFacts.uploads_app, reads_app. cbn. rewrite !app_nil_r. auto. }
    destruct c as [da up lg]. cbn [uploadedImage log] in Hmid.
    destruct (files d) as [|file others] eqn:Hfiles.
    + component_unfold. rewrite Hfiles. component_unfold.
      rewrite <- app_assoc. exact Hmid.
    + assert (Heq : exec (handleDrop d) (mkComponent da up lg)
                    = exec (handleFile file)
                           (mkComponent false up (lg ++ [PreventDefault; StopPropagation]))).
      { component_unfold. rewrite Hfiles. component_unfold.
        rewrite <- app_assoc. reflexivity. }
      rewrite Heq.
      destruct (handleFile_log
                  file (mkComponent false up (lg ++ [PreventDefault; StopPropagation])))
        as (Hup & Hrd).
      eapply consistent_read; eauto.
  - intros [= <-] Hc. destruct fs as [|file others].
    + destruct c; exact Hc.
    + destruct (handleFile_log file c) as (Hup & Hrd).
      eapply consistent_read; eauto.
  - destruct (reading c file) eqn:Hreading; [|discriminate].
    intros [= <-] (Hr & Hu & Hle).
    unfold reading in Hreading. apply Nat.ltb_lt in Hreading.
    assert (Himg : is_image file = true).
    { assert (Hin : In file (reads (log c))) by (apply times_positive_in; lia).
      rewrite Forall_forall in Hr. now apply Hr. }
    destruct c as [da up lg]. unfold consistent. component_unfold. cbn [log] in *.
    rewrite ImageUploadFacts.uploads_app, reads_app. cbn. rewrite app_nil_r.
    repeat split; auto.
    + apply Forall_app. split; [exact Hu|]. now constructor.
    + intros f. rewrite times_snoc. specialize (Hle f).
      destruct (same_file f file) eqn:Hsame; [|lia].
      apply same_file_eq in Hsame. subst f. lia.
  - intros [= <-] Hc. destruct c; exact Hc.
Qed.

(** X9: whatever is dragged, dropped or chosen, and in whatever order the
    readers finish, the parent's [onImageUpload] callback only ever receives
    files whose type starts with [image/], only such files are read, and no
    file is reported more often than it was read. *)
Theorem parent_receives_only_images (es : list Event) (c : Component) :
  run es initial = Some c ->
  Forall (fun f => is_image f = true) (uploads (log c))
  /\ Forall (fun f => is_image f = true) (reads (log c))
  /\ (forall f, times f (uploads (log c)) <= times f (reads (log c)))%nat.
Proof.
  assert (Hgen : forall c0, consistent c0 -> run es c0 = Some c -> consistent c).
  { induction es as [|e es IH]; intros c0 Hc0; cbn [run].
    - now intros [= <-].
    - destruct (step e c0) as [c1|] eqn:Hstep; [|discriminate].
      apply IH. eapply step_consistent; eauto. }
  intros Hrun.
  assert (Hinit : consistent initial)
    by (repeat split; try constructor; intros f; cbn; lia).
  destruct (Hgen initial Hinit Hrun) as (Hr & Hu & Hle). auto.
Qed.

Lemma parent_receives_only_images_witness :
  uploads
    (log (exec (onloadend Samples.model_png (Some "data:image/png;base64,AAAA"))
               (exec (handleFileInput [Samples.model_png])
                     (exec (handleDrop (mkDragEvent "drop" [Samples.notes_txt; Samples.model_png]))
                           initial))))
  = [Samples.model_png]
  /\ Forall (fun f => is_image f = true)
            (uploads
               (log (exec (onloadend Samples.model_png (Some "data:image/png;base64,AAAA"))
                          (exec (handleFileInput [Samples.model_png])
                                (exec (handleDrop (mkDragEvent "drop"
                                                     [Samples.notes_txt; Samples.model_png]))
                                      initial))))).
Proof.
  split; [reflexivity|].
  apply (parent_receives_only_images
           [ Drop (mkDragEvent "drop" [Samples.notes_txt; Samples.model_png]);
             Choose [Samples.model_png];
             LoadEnd Samples.model_png (Some "data:image/png;base64,AAAA") ]).
  reflexivity.
Defined.

End ImageUploadMore.


(** ** More on the [useImageUpload] hook: outcomes and overlapping calls *)

Module UseImageUploadMore.

Import UseImageUpload.

Ltac upload_unfold := UseImageUploadFacts.upload_unfold.

(** X10: [uploadImage] replaces the image and its preview only when the
    validation accepts the file and the preview is made; then the error is
    cleared as well.  When the validation throws, or the preview cannot be
    made, the image and preview shown before are kept and [error] is the
    thrown error's message, or ["Upload failed"] for a value that is not an
    [Error]; when the validation rejects the file they are kept too, with
    the validation's message as [error]. *)
Theorem uploadImage_outcomes
        (validateImageFile : File -> Completion Validation)
        (file : File) (outcome : Settled string) (h : Hook) :
  let h' := exec (uploadImage validateImageFile file outcome) h in
  (forall validation previewUrl,
      validateImageFile file = Returned validation ->
      isValid validation = true ->
      outcome = Fulfilled previewUrl ->
      h' = mkHook (Some file) (Some previewUrl) false None)
  /\ (forall validation err,
         validateImageFile file = Returned validation ->
         isValid validation = true ->
         outcome = Rejected err ->
         h' = mkHook (image h) (preview h) false
                     (Some (error_message err "Upload failed")))
  /\ (forall err,
         validateImageFile file = Threw err ->
         h' = mkHook (image h) (preview h) false
                     (Some (error_message err "Upload failed")))
  /\ (forall validation,
         validateImageFile file = Returned validation ->
         isValid validation = false ->
         h' = mkHook (image h) (preview h) false
                     (Some (or_default (validation_error validation) "Invalid file"))).
Proof.
  destruct h as [im pv up er].
  split; [|split; [|split]].
  - intros validation previewUrl Hv Hvalid ->. upload_unfold.
    rewrite Hv, Hvalid. reflexivity.
  - intros validation err Hv Hvalid ->. upload_unfold.
    rewrite Hv, Hvalid. reflexivity.
  - intros err Hv. upload_unfold. rewrite Hv. reflexivity.
  - intros validation Hv Hinvalid. upload_unfold. rewrite Hv, Hinvalid. reflexivity.
Qed.

Lemma uploadImage_outcomes_witness :
  exec (uploadImage Samples.validate_by_type Samples.model_png
                    (Rejected (ThrownError "Could not read file")))
       (mkHook (Some Samples.garment_png) (Some "data:old") false None)
  = mkHook (Some Samples.garment_png) (Some "data:old") false
           (Some "Could not read file").
Proof.
  apply (proj1 (proj2 (uploadImage_outcomes
                         Samples.validate_by_type Samples.model_png
                         (Rejected (ThrownError "Could not read file"))
                         (mkHook (Some Samples.garment_png) (Some "data:old") false None)))
               (mkValidation true None) (ThrownError "Could not read file"));
    reflexivity.
Defined.

(** A file the validation accepts leaves [uploadImage] suspended at the
    preview, with [isUploading] true and the error cleared. *)
Lemma uploadImage_begin_valid
      (validateImageFile : File -> Completion Validation)
      (file : File) (validation : Validation) (h : Hook) :
  validateImageFile file = Returned validation ->
  isValid validation = true ->
  uploadImage_begin validateImageFile file h
  = (true, mkHook (image h) (preview h) true None).
Proof.
  intros Hv Hvalid. destruct h as [im pv up er].
  unfold uploadImage_begin. upload_unfold. rewrite Hv, Hvalid. reflexivity.
Qed.

(** X11: [clearImage] does not cancel an upload that is waiting for its
    preview.  It leaves [isUploading] true, and when the preview arrives the
    file and its preview are stored all the same. *)
Theorem clearImage_does_not_cancel_upload
        (validateImageFile : File -> Completion Validation)
        (file : File) (validation : Validation) (previewUrl : string) (h : Hook) :
  validateImageFile file = Returned validation ->
  isValid validation = true ->
  let pending := exec (uploadImage_begin validateImageFile file) h in
  let cleared := exec clearImage pending in
  eval (uploadImage_begin validateImageFile file) h = true
  /\ cleared = mkHook None None true None
  /\ exec (uploadImage_resume file (Fulfilled previewUrl)) cleared
     = mkHook (Some file) (Some previewUrl) false None.
Proof.
  intros Hv Hvalid pending cleared.
  subst cleared pending. unfold exec, eval.
  rewrite (uploadImage_begin_valid validateImageFile file validation h Hv Hvalid).
  repeat split; reflexivity.
Qed.

Lemma clearImage_does_not_cancel_upload_witness :
  exec (uploadImage_resume Samples.model_png (Fulfilled "data:new"))
       (exec clearImage
             (exec (uploadImage_begin Samples.validate_by_type Samples.model_png) initial))
  = mkHook (Some Samples.model_png) (Some "data:new") false None.
Proof.
  apply (clearImage_does_not_cancel_upload
           Samples.validate_by_type Samples.model_png (mkValidation true None)
           "data:new" initial); reflexivity.
Defined.

(** X12: two uploads that overlap share the one [isUploading] flag and the
    one image.  When the first preview arrives the flag goes false although
    the second upload is still waiting; and the image finally shown is that
    of the upload whose preview arrives last, not of the file chosen last. *)
Theorem overlapping_uploads
        (validateImageFile : File -> Completion Validation)
        (first second : File) (v1 v2 : Validation) (url1 url2 : string) (h : Hook) :
  validateImageFile first = Returned v1 -> isValid v1 = true ->
  validateImageFile second = Returned v2 -> isValid v2 = true ->
  let both := exec (uploadImage_begin validateImageFile second)
                   (exec (uploadImage_begin validateImageFile first) h) in
  isUploading both = true
  /\ isUploading (exec (uploadImage_resume first (Fulfilled url1)) both) = false
  /\ exec (uploadImage_resume second (Fulfilled url2))
          (exec (uploadImage_resume first (Fulfilled url1)) both)
     = mkHook (Some second) (Some url2) false None
  /\ exec (uploadImage_resume first (Fulfilled url1))
          (exec (uploadImage_resume second (Fulfilled url2)) both)
     = mkHook (Some first) (Some url1) false None.
Proof.
  intros H1 Hv1 H2 Hv2 both. subst both. unfold exec.
  rewrite (uploadImage_begin_valid validateImageFile first v1 h H1 Hv1). cbn [snd].
  rewrite (uploadImage_begin_valid validateImageFile second v2 _ H2 Hv2).
  repeat split; reflexivity.
Qed.

Lemma overlapping_uploads_witness :
  exec (uploadImage_resume Samples.model_png (Fulfilled "data:model"))
       (exec (uploadImage_resume Samples.garment_png (Fulfilled "data:garment"))
             (exec (uploadImage_begin Samples.validate_by_type Samples.garment_png)
                   (exec (uploadImage_begin Samples.validate_by_type Samples.model_png)
                         initial)))
  = mkHook (Some Samples.model_png) (Some "data:model") false None.
Proof.
  apply (overlapping_uploads
           Samples.validate_by_type Samples.model_png Samples.garment_png
           (mkValidation true None) (mkValidation true None)
           "data:model" "data:garment" initial); reflexivity.
Defined.

End UseImageUploadMore.


(** ** More on [simulateProgress]: where the progress ends up *)

Module PageMore.

Import Page.
Local Open Scope Q_scope.

Lemma Qle_bool_false (x y : Q) : Qle_bool x y = false -> y < x.
Proof.
  intros H. apply Qnot_le_lt. intros Hle.
  apply Qle_bool_iff in Hle. congruence.
Qed.

Lemma Qle_bool_eq (x y x' y' : Q) :
  (x <= y <-> x' <= y') -> Qle_bool x y = Qle_bool x' y'.
Proof.
  intros Hiff.
  destruct (Qle_bool x y) eqn:H1, (Qle_bool x' y') eqn:H2; try reflexivity.
  - apply Qle_bool_iff, Hiff, Qle_bool_iff in H1. congruence.
  - apply Qle_bool_iff, Hiff, Qle_bool_iff in H2. congruence.
Qed.

Lemma tick_tracks (r : Q) (s : Sim) (S : Q) :
  0 <= r -> Home.tracks s S -> Home.tracks (tick r s) (S + r * 30).
Proof.
  intros Hr (Hp & Hi). unfold tick.
  destruct (interval s) eqn:Hint.
  - symmetry in Hi. apply negb_true_iff, Qle_bool_false in Hi.
    assert (HpS : local_progress s == S) by (rewrite Hp; apply Q.min_r; lra).
    unfold Home.tracks; cbn [local_progress interval]. unfold advance.
    destruct (Qle_bool (local_progress s + r * 30) 90) eqn:Hcap.
    + apply Qle_bool_iff in Hcap. split.
      * rewrite Q.min_r by lra. lra.
      * f_equal. apply Qle_bool_eq. lra.
    + apply Qle_bool_false in Hcap. split.
      * rewrite Q.min_l by lra. reflexivity.
      * f_equal. apply Qle_bool_eq. lra.
  - symmetry in Hi. apply negb_false_iff, Qle_bool_iff in Hi.
    unfold Home.tracks. split.
    + rewrite Hp, !Q.min_l by lra. reflexivity.
    + rewrite Hint. symmetry. apply negb_false_iff, Qle_bool_iff. lra.
Qed.

Lemma tracks_eq (s : Sim) (S S' : Q) : S == S' -> Home.tracks s S -> Home.tracks s S'.
Proof.
  intros Heq (Hp & Hi). split.
  - rewrite Hp. now rewrite Heq.
  - rewrite Hi. f_equal. apply Qle_bool_eq. lra.
Qed.

Lemma ticks_tracks (rs : list Q) :
  Forall (fun r => 0 <= r) rs ->
  forall s S, Home.tracks s S -> Home.tracks (ticks rs s) (S + 30 * Home.total rs).
Proof.
  induction 1 as [|r rs Hr _ IH]; intros s S Hs; cbn [ticks Home.total].
  - apply (tracks_eq s S); [lra | exact Hs].
  - apply (tracks_eq _ ((S + r * 30) + 30 * Home.total rs)); [lra|].
    apply IH, tick_tracks; assumption.
Qed.

Lemma ticks_cleared (rs : list Q) (s : Sim) :
  interval s = false -> ticks rs s = s.
Proof.
  intros Hs. induction rs as [|r rs IH]; cbn [ticks]; [reflexivity|].
  unfold tick. rewrite Hs. exact IH.
Qed.

(** A fact of the model over the rationals, where sums are exact; it is
    used only to bound the first three firings. *)
Lemma capped_sum (rs : list Q) :
  Forall (fun r => 0 <= r) rs ->
  local_progress (ticks rs simulateProgress) == Qmin 90 (30 * Home.total rs)
  /\ interval (ticks rs simulateProgress) = negb (Qle_bool 3 (Home.total rs)).
Proof.
  intros Hrs.
  assert (H0 : Home.tracks simulateProgress 0) by (split; reflexivity).
  pose proof (ticks_tracks rs Hrs simulateProgress 0 H0) as Ht.
  apply (tracks_eq _ _ (30 * Home.total rs)) in Ht; [|lra].
  destruct Ht as (Hp & Hi).
  split; [exact Hp|].
  rewrite Hi. f_equal. apply Qle_bool_eq. lra.
Qed.

(** What the interval callback keeps true of the closure's variables. *)
Lemma tick_interval (r : Q) (s : Sim) :
  local_progress s <= 90 ->
  interval s = negb (Qle_bool 90 (local_progress s)) ->
  local_progress (tick r s) <= 90
  /\ interval (tick r s) = negb (Qle_bool 90 (local_progress (tick r s))).
Proof.
  intros Hcap Hint. unfold tick.
  destruct (interval s) eqn:Hon; [|split; [assumption | congruence]].
  cbn [local_progress interval]. split; [|reflexivity].
  unfold advance.
  destruct (Qle_bool (local_progress s + r * 30) 90) eqn:E.
  - now apply Qle_bool_iff.
  - lra.
Qed.

(** X13: in [simulateProgress] the interval is cleared exactly when the
    accumulated progress has reached 90, and never otherwise: after any
    number of firings the progress is at most 90, the interval is still set
    if and only if the progress is below 90, and once it is cleared further
    firings change nothing, so the progress stays at 90. *)
Theorem interval_cleared_exactly_at_ninety (rs : list Q) :
  let s := ticks rs simulateProgress in
  local_progress s <= 90
  /\ (interval s = true <-> local_progress s < 90)
  /\ (interval s = false <-> local_progress s == 90)
  /\ (interval s = false -> forall more, ticks more s = s).
Proof.
  intros s.
  assert (Hgen : forall s0,
             local_progress s0 <= 90 ->
             interval s0 = negb (Qle_bool 90 (local_progress s0)) ->
             local_progress (ticks rs s0) <= 90
             /\ interval (ticks rs s0)
                = negb (Qle_bool 90 (local_progress (ticks rs s0)))).
  { induction rs as [|r rs IH]; intros s0 Hcap Hint; cbn [ticks]; [split; assumption|].
    destruct (tick_interval r s0 Hcap Hint) as (Hcap' & Hint'). now apply IH. }
  destruct (Hgen simulateProgress) as (Hcap & Hint);
    [cbn; lra | reflexivity |]. fold s in Hcap, Hint.
  split; [exact Hcap|]. split; [|split].
  - rewrite Hint, negb_true_iff. split.
    + apply Qle_bool_false.
    + intros Hlt. destruct (Qle_bool 90 (local_progress s)) eqn:E; [|reflexivity].
      apply Qle_bool_iff in E. lra.
  - rewrite Hint, negb_false_iff, Qle_bool_iff. split; intros H; lra.
  - intros Hoff more. now apply ticks_cleared.
Qed.

(** X14: since [Math.random()] stays below 1, a firing adds less than 30,
    so the interval is never cleared by one of its first three firings: the
    progress is then still below 90. *)
Theorem interval_survives_three_firings (rs : list Q) :
  Forall random_value rs ->
  (length rs <= 3)%nat ->
  let s := ticks rs simulateProgress in
  interval s = true /\ local_progress s < 90.
Proof.
  intros Hrs Hlen s.
  assert (Hnn : Forall (fun r => 0 <= r) rs)
    by (eapply Forall_impl; [|exact Hrs]; now intros r (Hr & _)).
  destruct (capped_sum rs Hnn) as (Hp & Hi). fold s in Hp, Hi.
  assert (Hsum : Home.total rs < 3).
  { destruct rs as [|a [|b [|c [|d rest]]]]; cbn [Home.total length] in *;
      try lia; repeat match goal with
                      | H : Forall _ (_ :: _) |- _ => inversion H; clear H; subst
                      end;
      unfold random_value in *; lra. }
  split.
  - rewrite Hi. apply negb_true_iff.
    destruct (Qle_bool 3 (Home.total rs)) eqn:E; [|reflexivity].
    apply Qle_bool_iff in E. lra.
  - rewrite Hp. rewrite Q.min_r by lra. lra.
Qed.

Lemma interval_survives_three_firings_witness :
  Forall random_value [99#100; 99#100; 99#100]
  /\ interval (ticks [99#100; 99#100; 99#100] simulateProgress) = true.
Proof.
  assert (H : Forall random_value [99#100; 99#100; 99#100])
    by (repeat constructor; cbv; discriminate).
  split; [exact H|].
  apply (interval_survives_three_firings [99#100; 99#100; 99#100] H).
  cbn. lia.
Defined.

Lemma Qmin_100 (p : Q) : p <= 90 -> Qmin p 100 = p.
Proof.
  intros Hp. unfold Qmin, GenericMinMax.gmin.
  destruct (p ?= 100) eqn:Hc; try reflexivity.
  apply Qgt_alt in Hc. lra.
Qed.

Lemma band_of_index (p : Q) :
  0 <= p -> p <= 90 ->
  array_get messages (clampedIndex p) = Some (Home.band p).
Proof.
  intros Hp0 Hp90.
  pose proof (PageFacts.messageIndex_range p Hp0 Hp90) as Hrange.
  pose proof (Qfloor_le (p / 25)) as Hlow.
  pose proof (Qlt_floor (p / 25)) as Hup.
  assert (Hx : p == 25 * (p / 25)) by field.
  unfold clampedIndex. change (Z.of_nat (length messages) - 1)%Z with 3%Z.
  rewrite Z.min_l by lia.
  unfold messageIndex in *. set (x := p / 25) in *. set (k := Qfloor x) in *.
  assert (Hk : k = 0%Z \/ k = 1%Z \/ k = 2%Z \/ k = 3%Z) by lia.
  unfold Home.band.
  destruct Hk as [Hk | [Hk | [Hk | Hk]]]; rewrite Hk in *.
  - assert (Hx1 : x < 1) by exact Hup.
    destruct (Qle_bool 75 p) eqn:E1; [apply Qle_bool_iff in E1; lra|].
    destruct (Qle_bool 50 p) eqn:E2; [apply Qle_bool_iff in E2; lra|].
    destruct (Qle_bool 25 p) eqn:E3; [apply Qle_bool_iff in E3; lra|].
    reflexivity.
  - assert (Hx0 : 1 <= x) by exact Hlow. assert (Hx1 : x < 2) by exact Hup.
    destruct (Qle_bool 75 p) eqn:E1; [apply Qle_bool_iff in E1; lra|].
    destruct (Qle_bool 50 p) eqn:E2; [apply Qle_bool_iff in E2; lra|].
    destruct (Qle_bool 25 p) eqn:E3; [|apply Qle_bool_false in E3; lra].
    reflexivity.
  - assert (Hx0 : 2 <= x) by exact Hlow. assert (Hx1 : x < 3) by exact Hup.
    destruct (Qle_bool 75 p) eqn:E1; [apply Qle_bool_iff in E1; lra|].
    destruct (Qle_bool 50 p) eqn:E2; [|apply Qle_bool_false in E2; lra].
    reflexivity.
  - assert (Hx0 : 3 <= x) by exact Hlow.
    destruct (Qle_bool 75 p) eqn:E1; [|apply Qle_bool_false in E1; lra].
    reflexivity.
Qed.

(** While the interval of [simulateProgress] fires, everything it publishes
    has a property that [publish] gives to any progress between 0 and 90. *)
Lemma tick_publishing (P : Status -> Prop) (r : Q) (s : Sim) :
  (forall prev p, isProcessing prev = true -> 0 <= p -> p <= 90 -> P (publish prev p)) ->
  0 <= r -> Home.publishing P s -> Home.publishing P (tick r s).
Proof.
  intros HP Hr (Hp0 & Hp90 & Hproc & Hall). unfold tick.
  destruct (interval s); [|repeat split; assumption].
  destruct (PageFacts.advance_range _ r Hp0 Hp90 Hr) as (Hup & Hcap).
  unfold Home.publishing; cbn [local_progress processingStatus published].
  repeat split; try assumption; try lra.
  apply Forall_app. split; [exact Hall|].
  constructor; [|constructor]. apply HP; [exact Hproc | lra | exact Hcap].
Qed.

Lemma ticks_publishing (P : Status -> Prop) (rs : list Q) :
  (forall prev p, isProcessing prev = true -> 0 <= p -> p <= 90 -> P (publish prev p)) ->
  Forall random_value rs ->
  Forall P (published (ticks rs simulateProgress)).
Proof.
  intros HP Hrs.
  assert (Hgen : forall s, Home.publishing P s -> Home.publishing P (ticks rs s)).
  { induction Hrs as [|r rs (Hr & _) _ IH]; intros s Hs; cbn [ticks]; [exact Hs|].
    apply IH, tick_publishing; assumption. }
  assert (Hinit : Home.publishing P simulateProgress).
  { unfold Home.publishing; cbn. repeat split; try lra; constructor. }
  apply (Hgen _ Hinit).
Qed.

(** X15: the message published with a progress value is decided by the
    quarter the value lies in: below 25 the image is analysed, from 25 the
    pose is detected, from 50 garments are processed, from 75 the result is
    generated.  This holds of every status the simulation publishes. *)
Theorem message_follows_progress (rs : list Q) :
  Forall random_value rs ->
  Forall (fun st => message st = Some (Home.band (progress st)))
         (published (ticks rs simulateProgress)).
Proof.
  apply ticks_publishing.
  intros prev p _ Hp0 Hp90. unfold publish; cbn [message progress].
  rewrite (Qmin_100 p Hp90). now apply band_of_index.
Qed.

Lemma message_follows_progress_witness :
  Forall random_value [1#2; 9#10; 1#5]
  /\ Forall (fun st => message st = Some (Home.band (progress st)))
            (published (ticks [1#2; 9#10; 1#5] simulateProgress)).
Proof.
  assert (H : Forall random_value [1#2; 9#10; 1#5])
    by (repeat constructor; cbv; discriminate).
  split; [exact H|].
  apply (message_follows_progress [1#2; 9#10; 1#5] H).
Defined.

Lemma round_range (p : Q) :
  0 <= p -> p <= 90 -> (0 <= ProcessingStatus.round p <= 90)%Z.
Proof.
  intros Hp0 Hp90. unfold ProcessingStatus.round. split.
  - change (Qfloor 0 <= Qfloor (p + (1 # 2)))%Z. apply Qfloor_resp_le. lra.
  - change (Qfloor (p + (1 # 2)) <= Qfloor (90 + (1 # 2)))%Z.
    apply Qfloor_resp_le. lra.
Qed.

(** X16: as long as the callback of [setTimeout] has not run, that is
    over any run of interval firings that follows the start of
    [simulateProgress] with nothing else writing the status in between, the
    status panel is rendered for every status published, under the heading
    ["Processing..."], with the hint line, with one of the four step
    messages, and with a percentage between 0 and 90.  (What a firing
    publishes after that callback is the subject of X17.) *)
Theorem panel_during_simulation (rs : list Q) :
  Forall random_value rs ->
  Forall (fun st =>
            exists view,
              ProcessingStatus.render st = Some view
              /\ ProcessingStatus.heading view = "Processing..."%string
              /\ ProcessingStatus.hint view = true
              /\ (exists m, ProcessingStatus.text view = Some m /\ In m messages)
              /\ (0 <= ProcessingStatus.percent view <= 90)%Z)
         (published (ticks rs simulateProgress)).
Proof.
  apply ticks_publishing.
  intros prev p Hproc Hp0 Hp90.
  unfold ProcessingStatus.render, publish; cbn [isProcessing progress message].
  rewrite Hproc, (Qmin_100 p Hp90). cbn [negb andb].
  eexists. split; [reflexivity|].
  cbn [ProcessingStatus.heading ProcessingStatus.hint ProcessingStatus.text
       ProcessingStatus.percent].
  repeat split.
  - apply PageFacts.array_get_messages, PageFacts.clampedIndex_range; assumption.
  - apply round_range; assumption.
  - apply round_range; assumption.
Qed.

Lemma panel_during_simulation_witness :
  Forall random_value [1#2; 9#10; 1#5]
  /\ Forall (fun st => exists view,
                ProcessingStatus.render st = Some view
                /\ ProcessingStatus.heading view = "Processing..."%string
                /\ ProcessingStatus.hint view = true
                /\ (exists m, ProcessingStatus.text view = Some m /\ In m messages)
                /\ (0 <= ProcessingStatus.percent view <= 90)%Z)
            (published (ticks [1#2; 9#10; 1#5] simulateProgress)).
Proof.
  assert (H : Forall random_value [1#2; 9#10; 1#5])
    by (repeat constructor; cbv; discriminate).
  split; [exact H|].
  apply (panel_during_simulation [1#2; 9#10; 1#5] H).
Defined.

(** X17: the callback of [setTimeout] does not clear the interval.  If the
    interval is still set when it runs, the next firing replaces the finished
    status (100 percent) by one with a step message and a progress of at
    most 90, with [isProcessing] still false: the panel then shows
    ["Complete!"] with at most 90 percent, or nothing if the progress is 0.
    If the interval had been cleared, the finished status stays. *)
Theorem late_firing_undoes_completion (rs : list Q) (r : Q) :
  Forall random_value rs ->
  random_value r ->
  let s := ticks rs simulateProgress in
  let late := processingStatus (tick r (Home.complete s)) in
  ProcessingStatus.render Home.finished
  = Some (ProcessingStatus.mkView "Complete!" (Some "Processing complete!"%string)
                                  100 100 false)
  /\ (interval s = true ->
      isProcessing late = false
      /\ progress late <= 90
      /\ (exists m, message late = Some m /\ In m messages)
      /\ match ProcessingStatus.render late with
         | Some view =>
             ProcessingStatus.heading view = "Complete!"%string
             /\ (0 <= ProcessingStatus.percent view <= 90)%Z
         | None => progress late == 0
         end)
  /\ (interval s = false ->
      forall more, processingStatus (ticks more (Home.complete s)) = Home.finished).
Proof.
  intros Hrs (Hr & _) s late.
  split; [reflexivity|]. split.
  - intros Hon.
    destruct (PageFacts.ticks_invariant rs Hrs _ PageFacts.simulateProgress_invariant)
      as (Hp0 & Hp90 & _). fold s in Hp0, Hp90.
    destruct (PageFacts.advance_range _ r Hp0 Hp90 Hr) as (Hup & Hcap).
    set (p := advance (local_progress s) r) in *.
    assert (Hq0 : 0 <= p) by lra.
    assert (Hlate : late = publish Home.finished p).
    { subst late. unfold tick, Home.complete; cbn [interval local_progress processingStatus].
      rewrite Hon. reflexivity. }
    rewrite Hlate. unfold publish; cbn [isProcessing progress message].
    rewrite (Qmin_100 p Hcap).
    split; [reflexivity|]. split; [exact Hcap|]. split.
    + apply PageFacts.array_get_messages, PageFacts.clampedIndex_range; assumption.
    + unfold ProcessingStatus.render; cbn [isProcessing progress message negb andb].
      destruct (Qeq_bool p 0) eqn:Hz.
      * now apply Qeq_bool_iff.
      * cbn [ProcessingStatus.heading ProcessingStatus.percent].
        split; [reflexivity | apply round_range; assumption].
  - intros Hoff more.
    rewrite ticks_cleared; [reflexivity|]. exact Hoff.
Qed.

Lemma late_firing_undoes_completion_witness :
  Forall random_value [1#2; 9#10; 1#5]
  /\ random_value (1#10)
  /\ interval (ticks [1#2; 9#10; 1#5] simulateProgress) = true
  /\ progress (processingStatus
                 (tick (1#10) (Home.complete (ticks [1#2; 9#10; 1#5] simulateProgress))))
     <= 90.
Proof.
  assert (H : Forall random_value [1#2; 9#10; 1#5])
    by (repeat constructor; cbv; discriminate).
  assert (Hr : random_value (1#10)) by (split; cbv; [discriminate | reflexivity]).
  split; [exact H|]. split; [exact Hr|]. split; [reflexivity|].
  destruct (late_firing_undoes_completion [1#2; 9#10; 1#5] (1#10) H Hr)
    as (_ & Hon & _).
  destruct (Hon eq_refl) as (_ & Hle & _).
  exact Hle.
Defined.

(** After draws 0.5, 0.9 and 0.2 the progress is 48; the job is then
    reported finished at 100, and a further draw of 0.1 shows 51. *)
Example finished_then_fifty_one :
  Qred (progress (processingStatus
                    (tick (1#10) (Home.complete (ticks [1#2; 9#10; 1#5] simulateProgress)))))
  = 51
  /\ progress (processingStatus (Home.complete (ticks [1#2; 9#10; 1#5] simulateProgress)))
     = 100.
Proof. split; reflexivity. Qed.

End PageMore.


(** ** The [Home] component: the button, the handler and the result *)

Module HomeMore.

Import Home.

Ltac home_unfold :=
  unfold exec, handleProcess, handleProcess_catch, timeout_callback, handleImageUpload,
    setMode, setUploadedImages, setProcessingStatus, setResult, emit,
    bind, ret, gets, modify;
  cbn [fst snd mode uploadedImages processingStatus result log].

(** The status [handleProcess] sets is the one [simulateProgress] starts
    from. *)
Example starting_is_simulated :
  Page.processingStatus Page.simulateProgress = starting.
Proof. reflexivity. Qed.

(** X18: [handleProcess] and the button's [disabled] attribute test the
    same thing.  When the button is disabled (no model image, or try-on
    without a garment image) the handler would only raise an alert and
    change nothing; when it is enabled the handler raises no alert, sets the
    starting status, starts the simulation and arms a 3000 ms timeout whose
    callback remembers the mode of that moment. *)
Theorem handleProcess_agrees_with_button (s : State) :
  (disabled s = true ->
   exists text,
     exec handleProcess s
     = mkState (mode s) (uploadedImages s) (processingStatus s) (result s)
               (log s ++ [Alert text]))
  /\ (disabled s = false ->
      exec handleProcess s
      = mkState (mode s) (uploadedImages s) starting (result s)
                (log s ++ [SimulateProgress; SetTimeout (mode s) 3000])).
Proof.
  destruct s as [m [mo ga] st re lg]. unfold disabled; cbn [mode uploadedImages model garment].
  split; intros Hd; home_unfold; cbn [model garment].
  - destruct mo as [f|], ga as [g|], m; cbn in Hd; try discriminate Hd;
      cbn [is_some negb is_try_on andb]; eexists; reflexivity.
  - apply orb_false_iff in Hd. destruct Hd as (-> & ->).
    rewrite <- app_assoc. reflexivity.
Qed.

Lemma handleProcess_agrees_with_button_witness :
  disabled initial = true
  /\ disabled (upload_all [(slot_model, Samples.model_png);
                           (slot_garment, Samples.garment_png)] initial) = false
  /\ log (exec handleProcess
               (upload_all [(slot_model, Samples.model_png);
                            (slot_garment, Samples.garment_png)] initial))
     = [SimulateProgress; SetTimeout try_on 3000].
Proof.
  split; [reflexivity|]. split; [reflexivity|].
  rewrite (proj2 (handleProcess_agrees_with_button
                    (upload_all [(slot_model, Samples.model_png);
                                 (slot_garment, Samples.garment_png)] initial))
                 eq_refl).
  reflexivity.
Defined.

Lemma handleImageUpload_spec (slot : Slot) (file : File) (s : State) :
  let s' := exec (handleImageUpload slot file) s in
  mode s' = mode s
  /\ processingStatus s' = processingStatus s
  /\ result s' = result s
  /\ log s' = log s
  /\ model (uploadedImages s')
     = match slot with slot_model => Some file | slot_garment => model (uploadedImages s) end
  /\ garment (uploadedImages s')
     = match slot with slot_model => garment (uploadedImages s) | slot_garment => Some file end.
Proof.
  destruct s as [m [mo ga] st re lg], slot; home_unfold; repeat split; reflexivity.
Qed.

(** X19: an upload fills its own slot and leaves the other one alone, and
    there is no way to empty a slot: over any series of uploads a slot that
    holds a file keeps holding one, so a button that is enabled stays
    enabled; and after a model and a garment were uploaded, in either order
    and with anything in between, the button is enabled in both modes. *)
Theorem uploads_only_enable (calls : list (Slot * File)) (s : State) :
  let s' := upload_all calls s in
  mode s' = mode s
  /\ (is_some (model (uploadedImages s)) = true ->
      is_some (model (uploadedImages s')) = true)
  /\ (is_some (garment (uploadedImages s)) = true ->
      is_some (garment (uploadedImages s')) = true)
  /\ (disabled s = false -> disabled s' = false)
  /\ (existsb (fun c => match fst c with slot_model => true | _ => false end) calls = true ->
      existsb (fun c => match fst c with slot_garment => true | _ => false end) calls = true ->
      disabled s' = false).
Proof.
  assert (Hkeep : forall calls s,
             mode (upload_all calls s) = mode s
             /\ (is_some (model (uploadedImages s)) = true ->
                 is_some (model (uploadedImages (upload_all calls s))) = true)
             /\ (is_some (garment (uploadedImages s)) = true ->
                 is_some (garment (uploadedImages (upload_all calls s))) = true)).
  { clear. induction calls as [|[slot file] rest IH]; intros s; cbn [upload_all].
    - auto.
    - destruct (IH (exec (handleImageUpload slot file) s)) as (Hm & Hmo & Hga).
      destruct (handleImageUpload_spec slot file s) as (Hm' & _ & _ & _ & Hmo' & Hga').
      cbn zeta in *. rewrite Hm, Hm'. split; [reflexivity|].
      split; intros H.
      + apply Hmo. rewrite Hmo'. now destruct slot.
      + apply Hga. rewrite Hga'. now destruct slot. }
  assert (Hfill : forall calls s,
             (existsb (fun c => match fst c with slot_model => true | _ => false end) calls
              = true ->
              is_some (model (uploadedImages (upload_all calls s))) = true)
             /\ (existsb (fun c => match fst c with slot_garment => true | _ => false end)
                         calls = true ->
                 is_some (garment (uploadedImages (upload_all calls s))) = true)).
  { clear - Hkeep. induction calls as [|[slot file] rest IH]; intros s; cbn [upload_all existsb fst].
    - split; discriminate.
    - destruct (IH (exec (handleImageUpload slot file) s)) as (Hmo & Hga).
      destruct (Hkeep rest (exec (handleImageUpload slot file) s)) as (_ & Kmo & Kga).
      destruct (handleImageUpload_spec slot file s) as (_ & _ & _ & _ & Hmo' & Hga').
      cbn zeta in *.
      split; intros H; destruct slot; cbn in H; auto. }
  intros s'. subst s'.
  destruct (Hkeep calls s) as (Hm & Hmo & Hga).
  destruct (Hfill calls s) as (Fmo & Fga).
  split; [exact Hm|]. split; [exact Hmo|]. split; [exact Hga|]. split.
  - unfold disabled. rewrite Hm. intros Hd. apply orb_false_iff in Hd.
    destruct Hd as (Hd1 & Hd2). apply negb_false_iff in Hd1.
    rewrite (Hmo Hd1). cbn.
    destruct (is_try_on (mode s)); [|reflexivity]. cbn in *.
    apply negb_false_iff in Hd2. now rewrite (Hga Hd2).
  - intros H1 H2. unfold disabled. rewrite (Fmo H1), (Fga H2). cbn.
    now rewrite andb_false_r.
Qed.

Lemma uploads_only_enable_witness :
  disabled (upload_all [(slot_garment, Samples.garment_png);
                        (slot_model, Samples.model_png);
                        (slot_model, Samples.notes_txt)] initial) = false.
Proof.
  apply (uploads_only_enable [(slot_garment, Samples.garment_png);
                              (slot_model, Samples.model_png);
                              (slot_model, Samples.notes_txt)] initial);
    reflexivity.
Defined.


End HomeMore.
